(** * AI Learning Platform backend: authentication and file intake

    A shallow embedding of the contract-bearing backend code:
    - [config/multer.config.js]  (file type validation, deletion helper),
    - [controllers/auth.controller.js] (both revisions kept in the file),
    - [models/Quiz.js] (the quiz schema).

    JavaScript values are modelled as the code uses them: request bodies
    are finite maps from field names to strings, the users collection is
    a list of records (order and duplicates matter), the disk is a finite
    map from paths to nodes, and every call that may throw returns an
    [outcome]. *)

From Stdlib Require Import ZArith Lia Ascii String.
From stdpp Require Import strings pretty gmap list fin_maps.

Local Open Scope string_scope.

(** ** JavaScript control flow: values that may be thrown *)

Inductive outcome (A : Type) : Type :=
| Return (a : A)
| Throw (msg : string).
Arguments Return {A} a.
Arguments Throw {A} msg.

#[global] Instance outcome_ret : MRet outcome := fun A a => Return a.
#[global] Instance outcome_bind : MBind outcome := fun A B k m =>
  match m with
  | Return a => k a
  | Throw e => Throw e
  end.

(** ** Strings as the code uses them *)

Module Js.

(** [s.includes(t)]: [t] occurs somewhere in [s]. *)
Fixpoint includes (t s : string) : bool :=
  String.prefix t s ||
  match s with
  | EmptyString => false
  | String _ s' => includes t s'
  end.

Definition lower_ascii (c : ascii) : ascii :=
  let n := Ascii.nat_of_ascii c in
  if (65 <=? n)%nat && (n <=? 90)%nat then Ascii.ascii_of_nat (n + 32) else c.

(** [s.toLowerCase()] on the ASCII range. *)
Fixpoint toLowerCase (s : string) : string :=
  match s with
  | EmptyString => EmptyString
  | String c s' => String (lower_ascii c) (toLowerCase s')
  end.

(** [s.slice(i, j)] for [0 <= i <= j]. *)
Definition slice (i j : nat) (s : string) : string :=
  String.substring i (j - i) s.

(** A regular expression that is a plain alternation of literals,
    [/a|b|c/], without anchors or flags. *)
Record RegExp := { alternatives : list string }.

(** [re.test(s)]: without anchors the match may start anywhere. *)
Definition test (re : RegExp) (s : string) : bool :=
  existsb (fun alt => includes alt s) (alternatives re).

(** [re.source] *)
Definition source (re : RegExp) : string :=
  String.concat "|" (alternatives re).

(** [arr.includes(x)] on an array of strings. *)
Definition array_includes (arr : list string) (x : string) : bool :=
  existsb (String.eqb x) arr.

(** A string is held as its UTF-8 bytes. The byte that starts a
    character of one, two or three bytes stands for one UTF-16 code
    unit, the byte that starts a character of four bytes for two (a
    surrogate pair), a continuation byte for none. *)
Definition code_units (c : ascii) : nat :=
  let n := Ascii.nat_of_ascii c in
  if (n <? 128)%nat then 1
  else if (n <? 192)%nat then 0
  else if (n <? 240)%nat then 1
  else 2.

(** [s.length]: the number of UTF-16 code units. *)
Fixpoint length (s : string) : nat :=
  match s with
  | EmptyString => 0
  | String c s' => code_units c + length s'
  end.

End Js.

(** ** [path] (Node's posix implementation) *)

Module Path.

(** The scanning state of [path.extname]: the loop runs from the last
    character to the first. *)
Record scan := {
  startDot : option nat;
  startPart : nat;
  end_ : option nat;
  matchedSlash : bool;
  preDotState : Z
}.

Definition scan0 : scan :=
  {| startDot := None; startPart := 0; end_ := None;
     matchedSlash := true; preDotState := 0 |}.

(** One pass of the loop body at index [i] on character [c]; [inl] is
    [break], [inr] continues with the next (smaller) index. *)
Definition extname_step (i : nat) (c : ascii) (st : scan) : scan + scan :=
  if Ascii.eqb c "/" then
    if negb (matchedSlash st)
    then inl {| startDot := startDot st; startPart := i + 1; end_ := end_ st;
                matchedSlash := matchedSlash st; preDotState := preDotState st |}
    else inr st
  else
    let st1 :=
      match end_ st with
      | None => {| startDot := startDot st; startPart := startPart st;
                   end_ := Some (i + 1); matchedSlash := false;
                   preDotState := preDotState st |}
      | Some _ => st
      end in
    if Ascii.eqb c "." then
      match startDot st1 with
      | None => inr {| startDot := Some i; startPart := startPart st1;
                       end_ := end_ st1; matchedSlash := matchedSlash st1;
                       preDotState := preDotState st1 |}
      | Some _ =>
          if negb (preDotState st1 =? 1)%Z
          then inr {| startDot := startDot st1; startPart := startPart st1;
                      end_ := end_ st1; matchedSlash := matchedSlash st1;
                      preDotState := 1 |}
          else inr st1
      end
    else
      match startDot st1 with
      | Some _ => inr {| startDot := startDot st1; startPart := startPart st1;
                         end_ := end_ st1; matchedSlash := matchedSlash st1;
                         preDotState := (-1) |}
      | None => inr st1
      end.

(** [rev_chars] holds the characters at indices [n-1, n-2, ..., 0]. *)
Fixpoint extname_loop (rev_chars : list ascii) (n : nat) (st : scan) : scan :=
  match rev_chars, n with
  | c :: rest, S i =>
      match extname_step i c st with
      | inl st' => st'
      | inr st' => extname_loop rest i st'
      end
  | _, _ => st
  end.

Definition extname (p : string) : string :=
  let chars := list_ascii_of_string p in
  let st := extname_loop (rev chars) (length chars) scan0 in
  match startDot st, end_ st with
  | Some sd, Some e =>
      if (preDotState st =? 0)%Z
         || ((preDotState st =? 1)%Z && (sd =? e - 1)%nat
             && (sd =? startPart st + 1)%nat)
      then ""
      else Js.slice sd e p
  | _, _ => ""
  end.

(** [path.join] of already normalised segments. *)
Definition join (segments : list string) : string :=
  String.concat "/" segments.

End Path.

(** ** The disk *)

Inductive node := RegularFile | Directory.

Module Fs.

(** [fs.existsSync]: true for any kind of node. *)
Definition existsSync (disk : gmap string node) (p : string) : bool :=
  match disk !! p with
  | Some _ => true
  | None => false
  end.

(** [fs.unlinkSync]: removes a regular file, throws otherwise. *)
Definition unlinkSync (disk : gmap string node) (p : string)
  : outcome (gmap string node) :=
  match disk !! p with
  | Some RegularFile => Return (delete p disk)
  | Some Directory => Throw "EISDIR: illegal operation on a directory, unlink"
  | None => Throw "ENOENT: no such file or directory, unlink"
  end.

End Fs.

(** ** [config/multer.config.js] *)

(** The part of a multer file object that the code reads. *)
Record MulterFile := {
  originalname : string;
  mimetype : string;
  filename : string;
  file_size : N
}.

Record AllowedTypes := {
  extensions : Js.RegExp;
  mimeTypes : list string
}.

Definition FILE_SIZE_LIMIT_profile : N := 5 * 1024 * 1024.
Definition FILE_SIZE_LIMIT_document : N := 50 * 1024 * 1024.

Definition ALLOWED_IMAGE_TYPES : AllowedTypes := {|
  extensions := {| Js.alternatives := ["jpeg"; "jpg"; "png"; "gif"; "webp"] |};
  mimeTypes := ["image/jpeg"; "image/jpg"; "image/png"; "image/gif"; "image/webp"]
|}.

Definition ALLOWED_DOCUMENT_TYPES : AllowedTypes := {|
  extensions := {| Js.alternatives := ["pdf"; "doc"; "docx"; "txt"; "ppt"; "pptx"] |};
  mimeTypes := [
    "application/pdf";
    "application/msword";
    "application/vnd.openxmlformats-officedocument.wordprocessingml.document";
    "text/plain";
    "application/vnd.ms-powerpoint";
    "application/vnd.openxmlformats-officedocument.presentationml.presentation"
  ]
|}.

Definition validateFileType (file : MulterFile) (allowedTypes : AllowedTypes) : bool :=
  let ext := Js.toLowerCase (Path.extname (originalname file)) in
  let isValidExtension := Js.test (extensions allowedTypes) ext in
  let isValidMimeType := Js.array_includes (mimeTypes allowedTypes) (mimetype file) in
  isValidExtension && isValidMimeType.

(** The extensions the two patterns are meant to list, with their dot. *)
Definition listed_extensions (allowedTypes : AllowedTypes) : list string :=
  map (fun tok => "." +:+ tok) (Js.alternatives (extensions allowedTypes)).

(** A file filter calls back with [cb(null, true)] or [cb(new Error(..), false)]. *)
Definition fileFilter (allowedTypes : AllowedTypes) (file : MulterFile) : outcome bool :=
  if validateFileType file allowedTypes
  then Return true
  else Throw ("Invalid file type. Only " +:+ Js.source (extensions allowedTypes)
              +:+ " files are allowed.").

Definition imageFileFilter := fileFilter ALLOWED_IMAGE_TYPES.
Definition documentFileFilter := fileFilter ALLOWED_DOCUMENT_TYPES.

(** A multer instance: the filter, then the size limit while the payload
    is streamed to disk. *)
Record Multer := {
  limits_fileSize : N;
  multer_fileFilter : MulterFile -> outcome bool
}.

Definition uploadProfileImage : Multer :=
  {| limits_fileSize := FILE_SIZE_LIMIT_profile; multer_fileFilter := imageFileFilter |}.
Definition uploadDocument : Multer :=
  {| limits_fileSize := FILE_SIZE_LIMIT_document; multer_fileFilter := documentFileFilter |}.

Inductive intake := Accepted | InvalidFileType (msg : string) | FileTooLarge.

Definition single (m : Multer) (file : MulterFile) : intake :=
  match multer_fileFilter m file with
  | Throw e => InvalidFileType e
  | Return false => InvalidFileType ""
  | Return true =>
      if (file_size file <=? limits_fileSize m)%N then Accepted else FileTooLarge
  end.

(** ** The users collection and the state of the server *)

Record User := {
  _id : nat;
  name : string;
  email : string;
  password : string;
  profileImage : option string;
  createdAt : N
}.

(** [user.password] where a local [password] is in scope. *)
Abbreviation user_password := password (only parsing).

Record World := {
  users : list User;
  disk : gmap string node
}.

(** The awaited calls of the controllers. The environment may reject any
    of them (a lost connection, a failed validator, a signing error). *)
Inductive call :=
| VerifyEmail | BcryptHash | BcryptCompare | GenerateToken
| UserCreate | UserFindOne | UserFindById | UserFindByIdAndUpdate | UserSave.

#[global] Instance call_eq_dec : EqDecision call.
Proof. solve_decision. Defined.

Record Env := {
  NODE_ENV : string;
  cwd : string;
  now : N;
  salt : string;
  rejects : call -> option string
}.

(** A computation reads and writes the world and may throw. What was
    written before a throw stays written. *)
Definition js (A : Type) : Type := World -> outcome A * World.

#[global] Instance js_ret : MRet js := fun A a w => (Return a, w).
#[global] Instance js_bind : MBind js := fun A B k m w =>
  match m w with
  | (Return a, w') => k a w'
  | (Throw e, w') => (Throw e, w')
  end.

Definition throw {A} (e : string) : js A := fun w => (Throw e, w).

(** [try { body } catch (error) { handler(error) }] *)
Definition try_catch {A} (body : js A) (handler : string -> js A) : js A :=
  fun w =>
    match body w with
    | (Return a, w') => (Return a, w')
    | (Throw e, w') => handler e w'
    end.

Definition get_users : js (list User) := fun w => (Return (users w), w).
Definition put_users (us : list User) : js unit :=
  fun w => (Return tt, {| users := us; disk := disk w |}).
Definition get_disk : js (gmap string node) := fun w => (Return (disk w), w).
Definition put_disk (d : gmap string node) : js unit :=
  fun w => (Return tt, {| users := users w; disk := d |}).
Definition lift {A} (o : outcome A) : js A := fun w => (o, w).

(** [deleteFile]: the whole body sits in a [try]; the handler logs and
    returns [false]. *)
Definition deleteFile (filePath : string) : js bool :=
  try_catch
    (d ← get_disk;
     if Fs.existsSync d filePath then
       d' ← lift (Fs.unlinkSync d filePath);
       _ ← put_disk d';
       mret true
     else mret false)
    (fun _error => mret false).

(** ** Requests and responses *)

Record Request := {
  body : gmap string string;
  file : option MulterFile;
  user : option nat
}.

Record UserView := {
  view_id : nat;
  view_name : string;
  view_email : string;
  view_profileImage : option string;
  view_createdAt : option N
}.

Inductive Data :=
| AuthData (user : UserView) (token : string)
| ProfileData (user : UserView).

Record Cookie := {
  cookie_value : string;
  httpOnly : bool;
  secure : bool;
  sameSite : string;
  maxAge : N
}.

(** The JSON envelope [{success, message, error?, data?}] with its status
    code and the cookie set on the response. *)
Record Response := {
  status : nat;
  success : bool;
  message : string;
  error : option string;
  data : option Data;
  cookie : option Cookie
}.

Definition json (st : nat) (ok : bool) (msg : string) : Response :=
  {| status := st; success := ok; message := msg;
     error := None; data := None; cookie := None |}.

Definition json_error (st : nat) (msg err : string) : Response :=
  {| status := st; success := false; message := msg;
     error := Some err; data := None; cookie := None |}.

(** A login request for an email and a password. *)
Definition login_request (e pw : string) : Request :=
  {| body := {[ "email" := e; "password" := pw ]}; file := None; user := None |}.

(** ** External libraries *)

(** [bcryptjs]: [bcrypt_hash salt s] is the hash of [s] under a fresh
    salt, [bcrypt_compare s h] checks [s] against the hash [h]. *)
Record Bcrypt := {
  bcrypt_hash : string -> string -> string;
  bcrypt_compare : string -> string -> bool
}.

(** What the controllers rely on: [bcrypt.compare] accepts a string
    against a hash that [bcrypt.hash] made of it. *)
Definition accepts_own_hash (b : Bcrypt) : Prop :=
  forall slt s, bcrypt_compare b s (bcrypt_hash b slt s) = true.

(** ** Database and library calls made by the controllers *)

Section Calls.

Context (bcrypt : Bcrypt) (sign : nat -> string) (env : Env).

(** An awaited call: rejected by the environment, or run. *)
Definition await {A} (c : call) (m : js A) : js A :=
  match rejects env c with
  | Some e => throw e
  | None => m
  end.

Definition has_email (e : string) (u : User) : bool := String.eqb (email u) e.
Definition has_id (i : nat) (u : User) : bool := Nat.eqb (_id u) i.

(** Modelled from the spec: [utils/verifyEmail.js] is not part of the
    sources; it answers whether the email already exists in the
    credential store. *)
Definition verifyEmail (e : option string) : js bool :=
  await VerifyEmail
    (us ← get_users;
     mret (match e with
           | Some e => existsb (has_email e) us
           | None => false
           end)).

(** [bcrypt.hash(s, 10)]; a missing argument is an illegal argument. *)
Definition hash (s : option string) : js string :=
  await BcryptHash
    (match s with
     | Some s => mret (bcrypt_hash bcrypt (salt env) s)
     | None => throw "Illegal arguments: undefined, number"
     end).

(** [bcrypt.compare(s, h)] *)
Definition compare (s : option string) (h : string) : js bool :=
  await BcryptCompare
    (match s with
     | Some s => mret (bcrypt_compare bcrypt s h)
     | None => throw "Illegal arguments: undefined, string"
     end).

(** Modelled from the spec: [utils/generateToken.js] is not part of the
    sources; it signs a token that binds the user's identifier and an
    expiry. [sign] is the signing function at the time of the request:
    two requests may sign the same identifier differently. *)
Definition generateToken (id : nat) : js string :=
  await GenerateToken (mret (sign id)).

(** [User.findOne({ email })] *)
Definition findOne (e : option string) : js (option User) :=
  await UserFindOne
    (us ← get_users;
     mret (match e with
           | Some e => List.find (has_email e) us
           | None => None
           end)).

(** [User.findById(id)] *)
Definition findById (id : nat) : js (option User) :=
  await UserFindById (us ← get_users; mret (List.find (has_id id) us)).

Definition fresh_id (us : list User) : nat :=
  S (foldr Nat.max 0 (map _id us)).

(** What [User.create] and [new User] receive. *)
Record UserData := {
  data_name : option string;
  data_email : option string;
  data_password : string;
  data_profileImage : option string
}.

(** Modelled from the spec: [models/user.js] is not part of the
    sources; a user has a name, an email and a password hash, an
    optional profile image and a creation timestamp. Inserting a
    document without a name or an email fails validation. *)
Definition insert_user (c : call) (d : UserData) : js User :=
  await c
    (match data_name d, data_email d with
     | Some n, Some e =>
         us ← get_users;
         let u := {| _id := fresh_id us; name := n; email := e;
                     password := data_password d;
                     profileImage := data_profileImage d;
                     createdAt := now env |} in
         _ ← put_users (us ++ [u]);
         mret u
     | _, _ => throw "User validation failed"
     end).

(** [User.create(userData)] *)
Definition create := insert_user UserCreate.

Fixpoint update_first (p : User -> bool) (f : User -> User) (us : list User)
  : list User :=
  match us with
  | [] => []
  | u :: rest => if p u then f u :: rest else u :: update_first p f rest
  end.

(** The update document as far as it is represented here: a flat object
    of string fields, of which the user schema stores [name], [email],
    [password] and [profileImage]. Update operators ([$set] and the
    like) and nested values are not represented. *)
Definition apply_updates (updates : gmap string string) (u : User) : User :=
  {| _id := _id u;
     name := default (name u) (updates !! "name");
     email := default (email u) (updates !! "email");
     password := default (password u) (updates !! "password");
     profileImage :=
       match updates !! "profileImage" with
       | Some p => Some p
       | None => profileImage u
       end;
     createdAt := createdAt u |}.

(** [User.findByIdAndUpdate(id, updates, { new: true })]: the updated
    document, or [null] when no document has that identifier. *)
Definition findByIdAndUpdate (id : nat) (updates : gmap string string)
  : js (option User) :=
  await UserFindByIdAndUpdate
    (us ← get_users;
     match List.find (has_id id) us with
     | Some u =>
         _ ← put_users (update_first (has_id id) (apply_updates updates) us);
         mret (Some (apply_updates updates u))
     | None => mret None
     end).

(** [user.save()] on a document that was loaded from the collection. *)
Definition save (u : User) : js unit :=
  await UserSave
    (us ← get_users;
     put_users (update_first (has_id (_id u)) (fun _ => u) us)).

Definition set_password (h : string) (u : User) : User :=
  {| _id := _id u; name := name u; email := email u; password := h;
     profileImage := profileImage u; createdAt := createdAt u |}.

(** [req.user.id] *)
Definition req_user_id (req : Request) : js nat :=
  match user req with
  | Some id => mret id
  | None => throw "Cannot read properties of undefined (reading 'id')"
  end.

(** A string is truthy when it is defined and not empty. *)
Definition truthy (s : option string) : bool :=
  match s with
  | Some s => negb (String.eqb s "")
  | None => false
  end.

Definition profile_path (f : MulterFile) : string :=
  "uploads/profiles/" +:+ filename f.

(** Where [profileStorage] wrote the accepted file. *)
Definition stored_path (f : MulterFile) : string :=
  Path.join [Path.join [cwd env; "uploads"; "profiles"]; filename f].

End Calls.

(** ** [controllers/auth.controller.js], first revision (lines 1-339) *)

Module V1.
Section Controller.

Context (bcrypt : Bcrypt) (sign : nat -> string) (env : Env).

Definition cleanupUploadedFile (file : option MulterFile) : js unit :=
  match file with
  | Some f =>
      let filePath := Path.join [cwd env; "uploads/profiles/" +:+ filename f] in
      _ ← deleteFile filePath;
      mret tt
  | None => mret tt
  end.

Definition formatUserResponse (u : User) : UserView :=
  {| view_id := _id u; view_name := name u; view_email := email u;
     view_profileImage := profileImage u;
     view_createdAt := Some (createdAt u) |}.

Definition setAuthCookie (token : string) : Cookie :=
  {| cookie_value := token; httpOnly := true;
     secure := String.eqb (NODE_ENV env) "production";
     sameSite := "strict"; maxAge := 3600000 |}.

Definition error_detail (e : string) : string :=
  if String.eqb (NODE_ENV env) "development" then e else "Internal server error".

(** [.select("-password")] *)
Definition without_password (u : User) : UserView := formatUserResponse u.

Definition register (req : Request) : js Response :=
  try_catch
    (let name := body req !! "name" in
     let email := body req !! "email" in
     let password := body req !! "password" in
     emailExists ← verifyEmail env email;
     if emailExists : bool then
       _ ← cleanupUploadedFile (file req);
       mret (json 400 false "Email already registered")
     else
       hashedPassword ← hash bcrypt env password;
       let userData :=
         {| data_name := name; data_email := email;
            data_password := hashedPassword;
            data_profileImage := profile_path <$> file req |} in
       user ← create env userData;
       token ← generateToken sign env (_id user);
       mret {| status := 201; success := true;
               message := "User registered successfully";
               error := None;
               data := Some (AuthData (formatUserResponse user) token);
               cookie := Some (setAuthCookie token) |})
    (fun error =>
       _ ← cleanupUploadedFile (file req);
       mret (json_error 500 "User registration failed" (error_detail error))).

Definition login (req : Request) : js Response :=
  try_catch
    (let email := body req !! "email" in
     let password := body req !! "password" in
     user ← findOne env email;
     match user with
     | None => mret (json 401 false "Invalid email or password")
     | Some user =>
         isPasswordValid ← compare bcrypt env password (user_password user);
         if negb isPasswordValid then
           mret (json 401 false "Invalid email or password")
         else
           token ← generateToken sign env (_id user);
           mret {| status := 200; success := true;
                   message := "User logged in successfully";
                   error := None;
                   data := Some (AuthData (formatUserResponse user) token);
                   cookie := Some (setAuthCookie token) |}
     end)
    (fun error => mret (json_error 500 "Login failed" (error_detail error))).

Definition updateProfile (req : Request) : js Response :=
  try_catch
    (let updates := delete "email" (delete "password" (body req)) in
     updates ←
       match file req with
       | Some f =>
           id ← req_user_id req;
           currentUser ← findById env id;
           _ ← match currentUser with
               | Some cu =>
                   if truthy (profileImage cu) then
                     let oldImagePath :=
                       Path.join [cwd env; default "" (profileImage cu)] in
                     _ ← deleteFile oldImagePath; mret tt
                   else mret tt
               | None => mret tt
               end;
           mret (<["profileImage" := profile_path f]> updates)
       | None => mret updates
       end;
     id ← req_user_id req;
     user ← findByIdAndUpdate env id updates;
     match user with
     | None => mret (json 404 false "User not found")
     | Some user =>
         mret {| status := 200; success := true;
                 message := "Profile updated successfully";
                 error := None;
                 data := Some (ProfileData (without_password user));
                 cookie := None |}
     end)
    (fun error =>
       _ ← cleanupUploadedFile (file req);
       mret (json_error 500 "Updating profile failed" (error_detail error))).

Definition changePassword (req : Request) : js Response :=
  try_catch
    (let oldPassword := body req !! "oldPassword" in
     let newPassword := body req !! "newPassword" in
     if negb (truthy oldPassword) || negb (truthy newPassword) then
       mret (json 400 false "Old password and new password are required")
     else if (Js.length (default "" newPassword) <? 6)%nat then
       mret (json 400 false "New password must be at least 6 characters long")
     else
       id ← req_user_id req;
       user ← findById env id;
       match user with
       | None => mret (json 404 false "User not found")
       | Some user =>
           isOldPasswordValid ← compare bcrypt env oldPassword (user_password user);
           if negb isOldPasswordValid then
             mret (json 401 false "Old password is incorrect")
           else
             h ← hash bcrypt env newPassword;
             _ ← save env (set_password h user);
             mret (json 200 true "Password changed successfully")
       end)
    (fun error =>
       mret (json_error 500 "Changing password failed" (error_detail error))).

End Controller.
End V1.

(** ** [controllers/auth.controller.js], second revision (lines 341-586) *)

Module V2.
Section Controller.

Context (bcrypt : Bcrypt) (sign : nat -> string) (env : Env).

Definition userResponse (u : User) : UserView :=
  {| view_id := _id u; view_name := name u; view_email := email u;
     view_profileImage := profileImage u; view_createdAt := None |}.

Definition token_cookie (token : string) : Cookie :=
  {| cookie_value := token; httpOnly := true;
     secure := String.eqb (NODE_ENV env) "production";
     sameSite := "strict"; maxAge := 3600000 |}.

Definition register (req : Request) : js Response :=
  try_catch
    (let name := body req !! "name" in
     let email := body req !! "email" in
     let password := body req !! "password" in
     emailExists ← verifyEmail env email;
     if emailExists : bool then
       mret (json 400 false "Email already registered")
     else
       hashedPassword ← hash bcrypt env password;
       user ← insert_user env UserSave
                {| data_name := name; data_email := email;
                   data_password := hashedPassword;
                   data_profileImage := None |};
       token ← generateToken sign env (_id user);
       mret {| status := 201; success := true;
               message := "User registered successfully";
               error := None;
               data := Some (AuthData (userResponse user) token);
               cookie := Some (token_cookie token) |})
    (fun error => mret (json_error 500 "User registration failed" error)).

Definition login (req : Request) : js Response :=
  try_catch
    (let email := body req !! "email" in
     let password := body req !! "password" in
     user ← findOne env email;
     match user with
     | None => mret (json 404 false "User not found")
     | Some user =>
         isPasswordValid ← compare bcrypt env password (user_password user);
         if negb isPasswordValid then
           mret (json 401 false "Invalid password")
         else
           token ← generateToken sign env (_id user);
           mret {| status := 200; success := true;
                   message := "User logged in successfully";
                   error := None;
                   data := Some (AuthData (userResponse user) token);
                   cookie := Some (token_cookie token) |}
     end)
    (fun error => mret (json_error 500 "Login failed" error)).

Definition updateProfile (req : Request) : js Response :=
  try_catch
    (let updates := delete "password" (body req) in
     id ← req_user_id req;
     user ← findByIdAndUpdate env id updates;
     match user with
     | None => mret (json 404 false "User not found")
     | Some user =>
         mret {| status := 200; success := true;
                 message := "Profile updated successfully";
                 error := None;
                 data := Some (ProfileData
                                 {| view_id := _id user; view_name := name user;
                                    view_email := email user;
                                    view_profileImage := profileImage user;
                                    view_createdAt := Some (createdAt user) |});
                 cookie := None |}
     end)
    (fun error => mret (json_error 500 "Updating profile failed" error)).

End Controller.
End V2.

(** ** [models/Quiz.js] *)

Module Quiz.

Inductive Difficulty := easy | medium | hard.

Record Choice := { choice_option : string; choice_isCorrect : bool }.

Record Question := {
  question : string;
  options : list Choice;
  correctAnswer : string;
  explanation : option string;
  difficulty : Difficulty
}.

Record UserAnswer := {
  questionIndex : Z;
  selectedAnswer : string;
  isCorrect : bool
}.

(** A stored quiz document. *)
Record t := {
  userId : nat;
  documentId : nat;
  questions : list Question;
  userAnswers : list UserAnswer;
  score : Z;
  totalQuestions : Z;
  answerAttempts : Z;
  completedAt : option N
}.

(** What a writer hands to the model: any field may be missing. *)
Record RawChoice := { raw_option : option string; raw_choice_isCorrect : option bool }.

Record RawQuestion := {
  raw_question : option string;
  raw_options : list RawChoice;
  raw_correctAnswer : option string;
  raw_explanation : option string;
  raw_difficulty : option string
}.

Record RawAnswer := {
  raw_questionIndex : option Z;
  raw_selectedAnswer : option string;
  raw_isCorrect : option bool
}.

Record Raw := {
  raw_userId : option nat;
  raw_documentId : option nat;
  raw_questions : list RawQuestion;
  raw_userAnswers : list RawAnswer;
  raw_score : option Z;
  raw_totalQuestions : option Z;
  raw_answerAttempts : option Z;
  raw_completedAt : option N
}.

(** [required: true]; on a string path the empty string is missing too. *)
Definition required {A} (path : string) (v : option A) : outcome A :=
  match v with
  | Some a => Return a
  | None => Throw ("Path `" +:+ path +:+ "` is required.")
  end.

Definition required_string (path : string) (v : option string) : outcome string :=
  match v with
  | Some s => if String.eqb s "" then Throw ("Path `" +:+ path +:+ "` is required.")
              else Return s
  | None => Throw ("Path `" +:+ path +:+ "` is required.")
  end.

(** [enum: ["easy", "medium", "hard"], default: "medium"] *)
Definition cast_difficulty (v : option string) : outcome Difficulty :=
  match v with
  | None => Return medium
  | Some s =>
      if String.eqb s "easy" then Return easy
      else if String.eqb s "medium" then Return medium
      else if String.eqb s "hard" then Return hard
      else Throw "`difficulty` is not a valid enum value."
  end.

Fixpoint traverse {A B} (f : A -> outcome B) (l : list A) : outcome (list B) :=
  match l with
  | [] => Return []
  | a :: rest => b ← f a; bs ← traverse f rest; Return (b :: bs)
  end.

Definition validate_choice (c : RawChoice) : outcome Choice :=
  o ← required_string "option" (raw_option c);
  Return {| choice_option := o;
            choice_isCorrect := default false (raw_choice_isCorrect c) |}.

Definition validate_question (q : RawQuestion) : outcome Question :=
  text ← required_string "question" (raw_question q);
  opts ← traverse validate_choice (raw_options q);
  ans ← required_string "correctAnswer" (raw_correctAnswer q);
  d ← cast_difficulty (raw_difficulty q);
  Return {| question := text; options := opts; correctAnswer := ans;
            explanation := raw_explanation q; difficulty := d |}.

Definition validate_answer (a : RawAnswer) : outcome UserAnswer :=
  i ← required "questionIndex" (raw_questionIndex a);
  sel ← required_string "selectedAnswer" (raw_selectedAnswer a);
  ok ← required "isCorrect" (raw_isCorrect a);
  Return {| questionIndex := i; selectedAnswer := sel; isCorrect := ok |}.

(** Validation of a document against [quizSchema]: required paths,
    the enumeration, and the defaults. *)
Definition validate (r : Raw) : outcome t :=
  uid ← required "userId" (raw_userId r);
  did ← required "documentId" (raw_documentId r);
  qs ← traverse validate_question (raw_questions r);
  answers ← traverse validate_answer (raw_userAnswers r);
  total ← required "totalQuestions" (raw_totalQuestions r);
  Return {| userId := uid; documentId := did; questions := qs;
            userAnswers := answers;
            score := default 0%Z (raw_score r);
            totalQuestions := total;
            answerAttempts := default 0%Z (raw_answerAttempts r);
            completedAt := raw_completedAt r |}.

End Quiz.

(** ** Sample data for evaluating the code on concrete inputs *)

Module Sample.

(** A deterministic stand-in for bcrypt that accepts its own hashes. *)
Definition bcrypt : Bcrypt :=
  {| bcrypt_hash := fun _ s => "$2b$10$" +:+ s;
     bcrypt_compare := fun s h => String.eqb h ("$2b$10$" +:+ s) |}.

Definition sign (id : nat) : string := "jwt." +:+ pretty id.

Definition env : Env :=
  {| NODE_ENV := "production"; cwd := "/srv/app"; now := 1700000000;
     salt := "salt"; rejects := fun _ => None |}.

(** The same environment with one awaited call rejected. *)
Definition env_rejecting (c : call) (e : string) : Env :=
  {| NODE_ENV := "production"; cwd := "/srv/app"; now := 1700000000;
     salt := "salt";
     rejects := fun c' => if decide (c' = c) then Some e else None |}.

Definition alice : User :=
  {| _id := 1; name := "Alice"; email := "alice@example.com";
     password := "$2b$10$Passw0rd!";
     profileImage := Some "uploads/profiles/profile-1-old.png";
     createdAt := 1600000000 |}.

Definition upload : MulterFile :=
  {| originalname := "me.png"; mimetype := "image/png";
     filename := "profile-1-new.png"; file_size := 2048 |}.

Definition world : World :=
  {| users := [alice];
     disk := {[ "/srv/app/uploads/profiles/profile-1-old.png" := RegularFile;
                "/srv/app/uploads/profiles/profile-1-new.png" := RegularFile;
                "/srv/app/uploads" := Directory ]} |}.

Definition resume_pdf : MulterFile :=
  {| originalname := "resume.pdf"; mimetype := "application/pdf";
     filename := "doc-1-resume.pdf"; file_size := 1024 * 1024 |}.

Definition raw_question : Quiz.RawQuestion :=
  {| Quiz.raw_question := Some "What does JWT stand for?";
     Quiz.raw_options :=
       [ {| Quiz.raw_option := Some "JSON Web Token";
            Quiz.raw_choice_isCorrect := Some true |};
         {| Quiz.raw_option := Some "Java Web Toolkit";
            Quiz.raw_choice_isCorrect := None |} ];
     Quiz.raw_correctAnswer := Some "JSON Web Token";
     Quiz.raw_explanation := None;
     Quiz.raw_difficulty := None |}.

(** A quiz saved with a correct answer to a sixth question and no
    score. *)
Definition stray_answer_quiz : Quiz.Raw :=
  {| Quiz.raw_userId := Some 1; Quiz.raw_documentId := Some 7;
     Quiz.raw_questions := [raw_question];
     Quiz.raw_userAnswers :=
       [ {| Quiz.raw_questionIndex := Some 5%Z;
            Quiz.raw_selectedAnswer := Some "JSON Web Token";
            Quiz.raw_isCorrect := Some true |} ];
     Quiz.raw_score := None;
     Quiz.raw_totalQuestions := Some 1%Z;
     Quiz.raw_answerAttempts := None;
     Quiz.raw_completedAt := None |}.

End Sample.

(** ** More of [config/multer.config.js] *)

(** [/[a-zA-Z0-9.-]/]: the characters the stored name keeps. *)
Definition kept_char (c : ascii) : bool :=
  let n := Ascii.nat_of_ascii c in
  ((97 <=? n)%nat && (n <=? 122)%nat)
  || ((65 <=? n)%nat && (n <=? 90)%nat)
  || ((48 <=? n)%nat && (n <=? 57)%nat)
  || Ascii.eqb c "." || Ascii.eqb c "-".

(** [s.replace(/[^a-zA-Z0-9.-]/g, "_")] *)
Fixpoint replace_unsafe (s : string) : string :=
  match s with
  | EmptyString => EmptyString
  | String c s' => String (if kept_char c then c else "_"%char) (replace_unsafe s')
  end.

Section UniqueFilename.

(** [path.basename(p, ext)] of Node; the code only passes its result
    through the replacement above. *)
Context (basename : string -> string -> string).

(** [generateUniqueFilename]; [timestamp] is [Date.now()] and
    [randomSuffix] is [Math.round(Math.random() * 1e9)]. *)
Definition generateUniqueFilename (timestamp randomSuffix : N)
    (prefix : string) (userId : option string) (originalName : string) : string :=
  let ext := Path.extname originalName in
  let sanitizedName := replace_unsafe (basename originalName ext) in
  prefix +:+ "-" +:+ (if truthy userId then default "" userId else "guest")
    +:+ "-" +:+ pretty timestamp +:+ "-" +:+ pretty randomSuffix
    +:+ "-" +:+ sanitizedName +:+ ext.

End UniqueFilename.

Record DeleteResult := {
  successCount : nat;
  failCount : nat;
  total : nat
}.

(** The [forEach] loop of [deleteMultipleFiles] with its two counters. *)
Fixpoint delete_each (filePaths : list string) (successes failures : nat)
  : js (nat * nat) :=
  match filePaths with
  | [] => mret (successes, failures)
  | filePath :: rest =>
      deleted ← deleteFile filePath;
      if deleted : bool
      then delete_each rest (S successes) failures
      else delete_each rest successes (S failures)
  end.

Definition deleteMultipleFiles (filePaths : list string) : js DeleteResult :=
  counts ← delete_each filePaths 0 0;
  mret {| successCount := fst counts; failCount := snd counts;
          total := length filePaths |}.

Definition fileExists (filePath : string) : js bool :=
  d ← get_disk; mret (Fs.existsSync d filePath).

(** ** The remaining handlers of [controllers/auth.controller.js] *)

Module V1_more.
Section Controller.

Context (env : Env).

(** [getProfile], first revision. *)
Definition getProfile (req : Request) : js Response :=
  try_catch
    (id ← req_user_id req;
     user ← findById env id;
     match user with
     | None => mret (json 404 false "User not found")
     | Some user =>
         mret {| status := 200; success := true;
                 message := "Profile fetched successfully";
                 error := None;
                 data := Some (ProfileData (V1.without_password user));
                 cookie := None |}
     end)
    (fun error =>
       mret (json_error 500 "Fetching profile failed" (V1.error_detail env error))).

End Controller.
End V1_more.

Module V2_more.
Section Controller.

Context (bcrypt : Bcrypt) (env : Env).

(** [getProfile], second revision. *)
Definition getProfile (req : Request) : js Response :=
  try_catch
    (id ← req_user_id req;
     user ← findById env id;
     match user with
     | None => mret (json 404 false "User not found")
     | Some user =>
         mret {| status := 200; success := true;
                 message := "Profile fetched successfully";
                 error := None;
                 data := Some (ProfileData (V1.without_password user));
                 cookie := None |}
     end)
    (fun error => mret (json_error 500 "Fetching profile failed" error)).

(** [changePassword], second revision: no length check. *)
Definition changePassword (req : Request) : js Response :=
  try_catch
    (let oldPassword := body req !! "oldPassword" in
     let newPassword := body req !! "newPassword" in
     if negb (truthy oldPassword) || negb (truthy newPassword) then
       mret (json 400 false "Old password and new password are required")
     else
       id ← req_user_id req;
       user ← findById env id;
       match user with
       | None => mret (json 404 false "User not found")
       | Some user =>
           isOldPasswordValid ← compare bcrypt env oldPassword (user_password user);
           if negb isOldPasswordValid then
             mret (json 401 false "Old password is incorrect")
           else
             h ← hash bcrypt env newPassword;
             _ ← save env (set_password h user);
             mret (json 200 true "Password changed successfully")
       end)
    (fun error => mret (json_error 500 "Changing password failed" error)).

End Controller.
End V2_more.

(** ** [middlewares/auth.js] *)

Module Auth.

(** [s.split(sep)] for a one-character separator. *)
Fixpoint split (sep : ascii) (s : string) : list string :=
  match s with
  | EmptyString => [EmptyString]
  | String c s' =>
      if Ascii.eqb c sep then EmptyString :: split sep s'
      else match split sep s' with
           | piece :: pieces => String c piece :: pieces
           | [] => [String c EmptyString]
           end
  end.

(** What the middleware reads of the incoming request, and what the
    handler behind it receives. *)
Record Incoming := {
  cookie_token : option string;
  authorization : option string;
  incoming_body : gmap string string;
  incoming_file : option MulterFile
}.

Inductive Outcome :=
| Next (req : Request)
| Respond (status : nat) (message : string).

Definition tokenFromHeader (authHeader : option string) : option string :=
  match authHeader with
  | Some h =>
      if truthy (Some h) && String.prefix "Bearer " h
      then split " " h !! 1%nat
      else None
  | None => None
  end.

Section Middleware.

(** [jwt.verify(token, secret)]: the identifier in the payload of a
    token with a valid signature and expiry. *)
Context (verify : string -> option nat).

Definition authMiddleware (req : Incoming) : Outcome :=
  let tokenFromCookie := cookie_token req in
  let token :=
    if truthy tokenFromCookie then tokenFromCookie
    else tokenFromHeader (authorization req) in
  if negb (truthy token) then
    Respond 401 "No token provided, authorization denied"
  else
    match verify (default "" token) with
    | None => Respond 403 "Invalid or expired token"
    | Some id =>
        Next {| body := incoming_body req; file := incoming_file req;
                user := Some id |}
    end.

(** A protected route: the middleware, then the handler. *)
Definition protected (handler : Request -> js Response) (req : Incoming)
  : js (Outcome + Response) :=
  match authMiddleware req with
  | Next req' => resp ← handler req'; mret (inr resp)
  | Respond st msg => mret (inl (Respond st msg))
  end.

End Middleware.

End Auth.

(** ** Reading a stored quiz back as input *)

Module QuizRaw.
Import Quiz.

Definition difficulty_name (d : Difficulty) : string :=
  match d with
  | easy => "easy"
  | medium => "medium"
  | hard => "hard"
  end.

Definition of_choice (c : Choice) : RawChoice :=
  {| raw_option := Some (choice_option c);
     raw_choice_isCorrect := Some (choice_isCorrect c) |}.

Definition of_question (q : Question) : RawQuestion :=
  {| raw_question := Some (question q);
     raw_options := map of_choice (options q);
     raw_correctAnswer := Some (correctAnswer q);
     raw_explanation := explanation q;
     raw_difficulty := Some (difficulty_name (difficulty q)) |}.

Definition of_answer (a : UserAnswer) : RawAnswer :=
  {| raw_questionIndex := Some (questionIndex a);
     raw_selectedAnswer := Some (selectedAnswer a);
     raw_isCorrect := Some (isCorrect a) |}.

(** The document as it is loaded from the collection. *)
Definition of_quiz (q : t) : Raw :=
  {| raw_userId := Some (userId q);
     raw_documentId := Some (documentId q);
     raw_questions := map of_question (questions q);
     raw_userAnswers := map of_answer (userAnswers q);
     raw_score := Some (score q);
     raw_totalQuestions := Some (totalQuestions q);
     raw_answerAttempts := Some (answerAttempts q);
     raw_completedAt := completedAt q |}.

End QuizRaw.

(** The characters of a decimal numeral. *)
Definition is_digit_char (c : ascii) : Prop :=
  In c (list_ascii_of_string "0123456789").

(** A character that is neither a dot nor a path separator. *)
Definition plain_char (c : ascii) : Prop := c <> "."%char /\ c <> "/"%char.

(** What the scan of [path.extname] has established after the
    characters [done] (the tail of the path from index [k] on): the dot
    it has chosen is followed by plain characters up to the end it has
    marked. *)
Definition scan_inv (done : list ascii) (k : nat) (st : Path.scan) : Prop :=
  match Path.startDot st with
  | Some sd =>
      exists mid e sl,
        done = (mid ++ "."%char :: e ++ sl)%list
        /\ Forall plain_char e
        /\ sd = k + length mid
        /\ Path.end_ st = Some (sd + 1 + length e)
  | None =>
      exists e sl,
        done = (e ++ sl)%list
        /\ Forall plain_char e
        /\ match Path.end_ st with
           | None => e = []
           | Some en => en = k + length e
           end
  end
  /\ (Path.end_ st <> None -> Path.matchedSlash st = false).

(** What the scan returns for the path [l]. *)
Definition scan_post (l : list ascii) (st : Path.scan) : Prop :=
  match Path.startDot st, Path.end_ st with
  | Some sd, Some en =>
      exists pre mid e sl,
        l = (pre ++ mid ++ "."%char :: e ++ sl)%list
        /\ Forall plain_char e
        /\ sd = length pre + length mid
        /\ en = sd + 1 + length e
  | _, _ => True
  end.

(** ** Shapes shared by the handlers *)

(** The envelope of a response: a success carries no error; a refusal
    (400, 401, 404) carries neither error, data nor cookie; a 500 carries
    an error and neither data nor cookie. *)
Definition envelope_ok (r : Response) : bool :=
  let bare := match data r, cookie r with None, None => true | _, _ => false end in
  let st := status r in
  if success r then
    ((st =? 200)%nat || (st =? 201)%nat)
    && match error r with None => true | Some _ => false end
  else
    bare
    && (((st =? 400)%nat || (st =? 401)%nat || (st =? 404)%nat)
          && match error r with None => true | Some _ => false end
        || (st =? 500)%nat
          && match error r with None => false | Some _ => true end).

(** Emails and identifiers are unique in the collection. *)
Definition store_ok (w : World) : Prop :=
  NoDup (map email (users w)) /\ NoDup (map _id (users w)).

(** ** More sample data *)

Module Demo.

(** A stand-in for [jwt.verify] that accepts what [Sample.sign] issues
    for the identifiers 1 and 2. *)
Definition verify (token : string) : option nat :=
  if String.eqb token "jwt.1" then Some 1
  else if String.eqb token "jwt.2" then Some 2
  else None.

(** [path.basename] on names without a directory part. *)
Definition basename (p ext : string) : string :=
  String.substring 0 (String.length p - String.length ext) p.

(** A token scheme that satisfies the round trip for every identifier:
    the token for [id] is a run of [id + 1] marks. *)
Fixpoint marks (n : nat) : string :=
  match n with
  | O => EmptyString
  | S n' => String "|" (marks n')
  end.

Definition unary_sign (id : nat) : string := marks (S id).

Definition unary_verify (token : string) : option nat :=
  match String.length token with
  | O => None
  | S id => if String.eqb token (marks (S id)) then Some id else None
  end.

Definition bob : User :=
  {| _id := 2; name := "Bob"; email := "bob@example.com";
     password := "$2b$10$S3cret!x"; profileImage := None;
     createdAt := 1650000000 |}.

(** A stand-in for bcrypt with its input limit: only the first 72 bytes
    of a password enter the hash. *)
Definition bcrypt72 : Bcrypt :=
  {| bcrypt_hash := fun _ s => "$2b$10$" +:+ String.substring 0 72 s;
     bcrypt_compare :=
       fun s h => String.eqb h ("$2b$10$" +:+ String.substring 0 72 s) |}.

(** Two passwords of 73 bytes that differ in the last one. *)
Definition long_old : string := marks 72 +:+ "1".
Definition long_new : string := marks 72 +:+ "2".

Definition dora : User :=
  {| _id := 4; name := "Dora"; email := "dora@example.com";
     password := bcrypt_hash bcrypt72 "salt" long_old; profileImage := None;
     createdAt := 1660000000 |}.

Definition world72 : World := {| users := [dora]; disk := ∅ |}.

Definition world : World :=
  {| users := [Sample.alice; bob];
     disk := {[ "/srv/app/uploads/profiles/profile-1-old.png" := RegularFile;
                "/srv/app/uploads/profiles/profile-1-new.png" := RegularFile;
                "/srv/app/uploads/documents/doc-2-notes.pdf" := RegularFile;
                "/srv/app/uploads" := Directory ]} |}.

End Demo.

(** * Properties *)

(** ** File intake *)

Example extname_exe : Path.extname "resume.exe" = ".exe".
Proof. reflexivity. Qed.
Example extname_hidden : Path.extname ".bashrc" = "".
Proof. reflexivity. Qed.
Example extname_two_dots : Path.extname "archive.tar.gz" = ".gz".
Proof. reflexivity. Qed.
Example extname_dotdot : Path.extname ".." = "".
Proof. reflexivity. Qed.
Example extname_trailing_dot : Path.extname "a." = ".".
Proof. reflexivity. Qed.
Example extname_in_directory : Path.extname "dir.d/file" = "".
Proof. reflexivity. Qed.
Example extname_upper_case : Js.toLowerCase (Path.extname "Slides.PPTX") = ".pptx".
Proof. reflexivity. Qed.

Lemma array_includes_In (arr : list string) (x : string) :
  Js.array_includes arr x = true <-> In x arr.
Proof.
  unfold Js.array_includes. rewrite existsb_exists. split.
  - intros (y & Hy & Heq). apply String.eqb_eq in Heq. now subst.
  - intros Hin. exists x. split; [assumption | apply String.eqb_refl].
Qed.

Lemma test_alternative (re : Js.RegExp) (s tok : string) :
  In tok (Js.alternatives re) -> Js.includes tok s = true -> Js.test re s = true.
Proof.
  intros Hin Hsub. unfold Js.test. apply existsb_exists. now exists tok.
Qed.

Lemma validateFileType_iff (f : MulterFile) (types : AllowedTypes) :
  validateFileType f types = true <->
  Js.test (extensions types) (Js.toLowerCase (Path.extname (originalname f))) = true
  /\ In (mimetype f) (mimeTypes types).
Proof.
  unfold validateFileType. rewrite andb_true_iff, array_includes_In. reflexivity.
Qed.

(** What [deleteFile] does, by the node found at the path. *)
Lemma deleteFile_cases (p : string) (w : World) :
  deleteFile p w =
  match disk w !! p with
  | Some RegularFile =>
      (Return true, {| users := users w; disk := delete p (disk w) |})
  | _ => (Return false, w)
  end.
Proof.
  unfold deleteFile, try_catch, mbind, js_bind, get_disk, lift, put_disk, mret, js_ret.
  unfold Fs.existsSync, Fs.unlinkSync.
  destruct (disk w !! p) as [[|]|]; reflexivity.
Qed.

(** C10. [deleteFile] on a path where nothing exists returns [false],
    leaves the world as it was and does not throw; on any path the call
    returns a boolean, and a second call on the same path returns
    [false] and changes nothing. *)
Theorem deleteFile_missing_path_is_failure (w : World) (p : string) :
  (disk w !! p = None -> deleteFile p w = (Return false, w))
  /\ exists (b : bool) (w1 : World),
       deleteFile p w = (Return b, w1)
       /\ deleteFile p w1 = (Return false, w1).
Proof.
  split.
  - intros Hnone. rewrite deleteFile_cases, Hnone. reflexivity.
  - rewrite deleteFile_cases.
    destruct (disk w !! p) as [[|]|] eqn:Hp.
    + eexists _, _. split; [reflexivity|].
      rewrite deleteFile_cases. cbn [disk]. now rewrite lookup_delete_eq.
    + exists false, w. split; [reflexivity|].
      rewrite deleteFile_cases, Hp. reflexivity.
    + exists false, w. split; [reflexivity|].
      rewrite deleteFile_cases, Hp. reflexivity.
Qed.

Lemma deleteFile_missing_path_is_failure_witness :
  disk Sample.world !! "/srv/app/uploads/profiles/none.png" = None
  /\ deleteFile "/srv/app/uploads/profiles/none.png" Sample.world
     = (Return false, Sample.world).
Proof.
  split; [reflexivity|].
  apply (proj1 (deleteFile_missing_path_is_failure
                  Sample.world "/srv/app/uploads/profiles/none.png")).
  reflexivity.
Defined.

(** The two examples of the document endpoint: [resume.exe] is refused
    whatever content type it declares, and a [.pdf] file of type
    [application/pdf] below the 50MB limit is accepted. *)
Lemma document_upload_examples (f : MulterFile) :
  (originalname f = "resume.exe" -> single uploadDocument f <> Accepted)
  /\ (Js.toLowerCase (Path.extname (originalname f)) = ".pdf" ->
      mimetype f = "application/pdf" ->
      (file_size f < FILE_SIZE_LIMIT_document)%N ->
      single uploadDocument f = Accepted).
Proof.
  split.
  - intros Hname.
    assert (Hv : validateFileType f ALLOWED_DOCUMENT_TYPES = false)
      by (unfold validateFileType; rewrite Hname; reflexivity).
    unfold single, uploadDocument, multer_fileFilter, documentFileFilter, fileFilter.
    rewrite Hv. discriminate.
  - intros Hext Hmime Hsize.
    assert (Hv : validateFileType f ALLOWED_DOCUMENT_TYPES = true)
      by (unfold validateFileType; rewrite Hext, Hmime; reflexivity).
    unfold single, uploadDocument, multer_fileFilter, limits_fileSize,
      documentFileFilter, fileFilter.
    rewrite Hv.
    apply N.lt_le_incl, N.leb_le in Hsize. now rewrite Hsize.
Qed.

Lemma validateFileType_token_anywhere (f : MulterFile) (types : AllowedTypes) (tok : string) :
  In tok (Js.alternatives (extensions types)) ->
  Js.includes tok (Js.toLowerCase (Path.extname (originalname f))) = true ->
  In (mimetype f) (mimeTypes types) ->
  validateFileType f types = true.
Proof.
  intros Htok Hsub Hmime. apply validateFileType_iff. split; [|assumption].
  eapply test_alternative; eassumption.
Qed.

(** C9. The extension pattern is searched for anywhere in the
    extension: files named [report.fakepdf] and [notes.htdoc] (and
    [shot.notpng] among the images) have an extension that is not a
    listed one, and pass [validateFileType] with every listed content
    type. *)
Theorem extension_match_is_unanchored
    (types : AllowedTypes) (name mime fn : string) (sz : N) :
  In (types, name)
     [(ALLOWED_DOCUMENT_TYPES, "report.fakepdf");
      (ALLOWED_DOCUMENT_TYPES, "notes.htdoc");
      (ALLOWED_IMAGE_TYPES, "shot.notpng")] ->
  In mime (mimeTypes types) ->
  ~ In (Js.toLowerCase (Path.extname name)) (listed_extensions types)
  /\ validateFileType
       {| originalname := name; mimetype := mime; filename := fn; file_size := sz |}
       types = true.
Proof.
  intros Hcase Hmime.
  assert (Hpass : forall tok,
             In tok (Js.alternatives (extensions types)) ->
             Js.includes tok (Js.toLowerCase (Path.extname name)) = true ->
             validateFileType
               {| originalname := name; mimetype := mime;
                  filename := fn; file_size := sz |} types = true).
  { intros tok Htok Hsub. now apply validateFileType_token_anywhere with tok. }
  cbn [In] in Hcase.
  destruct Hcase as [Heq | [Heq | [Heq | []]]]; injection Heq as <- <-.
  - split.
    + cbn. intros H. repeat (destruct H as [H | H]; [discriminate|]). exact H.
    + apply (Hpass "pdf"); [cbn; tauto | reflexivity].
  - split.
    + cbn. intros H. repeat (destruct H as [H | H]; [discriminate|]). exact H.
    + apply (Hpass "doc"); [cbn; tauto | reflexivity].
  - split.
    + cbn. intros H. repeat (destruct H as [H | H]; [discriminate|]). exact H.
    + apply (Hpass "png"); [cbn; tauto | reflexivity].
Qed.

Lemma extension_match_is_unanchored_witness :
  validateFileType
    {| originalname := "report.fakepdf"; mimetype := "application/pdf";
       filename := "doc-guest-1-2-report.fakepdf"; file_size := 10 |}
    ALLOWED_DOCUMENT_TYPES = true.
Proof.
  apply (extension_match_is_unanchored
           ALLOWED_DOCUMENT_TYPES "report.fakepdf" "application/pdf"
           "doc-guest-1-2-report.fakepdf" 10).
  - cbn. left. reflexivity.
  - cbn. left. reflexivity.
Defined.

(** C7. At the document endpoint a file is accepted as soon as one of
    the listed tokens occurs somewhere in its lower-cased extension, its
    declared content type is listed and its size is within the limit;
    the extension itself need not be a listed one: [report.fakepdf] of
    type [application/pdf] is accepted. *)
Theorem upload_accepts_unlisted_extension (f : MulterFile) (tok : string) :
  In tok (Js.alternatives (extensions ALLOWED_DOCUMENT_TYPES)) ->
  Js.includes tok (Js.toLowerCase (Path.extname (originalname f))) = true ->
  In (mimetype f) (mimeTypes ALLOWED_DOCUMENT_TYPES) ->
  (file_size f <= FILE_SIZE_LIMIT_document)%N ->
  single uploadDocument f = Accepted
  /\ (originalname f = "report.fakepdf" ->
      ~ In (Js.toLowerCase (Path.extname (originalname f)))
           (listed_extensions ALLOWED_DOCUMENT_TYPES)).
Proof.
  intros Htok Hsub Hmime Hsize. split.
  - assert (Hv : validateFileType f ALLOWED_DOCUMENT_TYPES = true)
      by now apply validateFileType_token_anywhere with tok.
    unfold single, uploadDocument, multer_fileFilter, limits_fileSize,
      documentFileFilter, fileFilter.
    rewrite Hv. apply N.leb_le in Hsize. now rewrite Hsize.
  - intros ->. cbn. intros H.
    repeat (destruct H as [H | H]; [discriminate|]). exact H.
Qed.

Lemma upload_accepts_unlisted_extension_witness :
  single uploadDocument
    {| originalname := "report.fakepdf"; mimetype := "application/pdf";
       filename := "doc-1-1700000000000-12-report.fakepdf";
       file_size := 1024 * 1024 |} = Accepted
  /\ ~ In ".fakepdf" (listed_extensions ALLOWED_DOCUMENT_TYPES).
Proof.
  destruct (upload_accepts_unlisted_extension
              {| originalname := "report.fakepdf"; mimetype := "application/pdf";
                 filename := "doc-1-1700000000000-12-report.fakepdf";
                 file_size := 1024 * 1024 |} "pdf") as [Haccepted Hunlisted].
  - cbn. left. reflexivity.
  - reflexivity.
  - cbn. left. reflexivity.
  - vm_compute. discriminate.
  - split; [exact Haccepted | exact (Hunlisted eq_refl)].
Defined.

(** ** Authentication *)

Ltac js_unfold :=
  unfold verifyEmail, hash, compare, generateToken, findOne, findById, create,
    insert_user, findByIdAndUpdate, save, req_user_id, await, try_catch, throw,
    get_users, put_users, get_disk, put_disk, lift, mbind, js_bind, mret, js_ret
    in *.

Lemma append_assoc (a b c : string) : (a +:+ b) +:+ c = a +:+ (b +:+ c).
Proof.
  induction a as [|x a IH]; [reflexivity|].
  change (String x ((a +:+ b) +:+ c) = String x (a +:+ (b +:+ c))).
  now rewrite IH.
Qed.

(** The cleanup helper addresses the file where the storage engine
    wrote it. *)
Lemma cleanup_path_is_stored_path (env : Env) (f : MulterFile) :
  Path.join [cwd env; "uploads/profiles/" +:+ filename f] = stored_path env f.
Proof.
  unfold stored_path, Path.join.
  change (cwd env +:+ "/" +:+ ("uploads/profiles/" +:+ filename f)
          = (cwd env +:+ "/uploads/profiles") +:+ "/" +:+ filename f).
  rewrite append_assoc. reflexivity.
Qed.

Section LoginFailures.

Context (bcrypt : Bcrypt) (sign : nat -> string) (env : Env).
Context (unknown known : Request) (w1 w2 : World).
Context (e1 e2 pw : string) (u : User).

Hypothesis lookup_runs : rejects env UserFindOne = None.
Hypothesis compare_runs : rejects env BcryptCompare = None.
Hypothesis unknown_email : body unknown !! "email" = Some e1.
Hypothesis no_such_user : List.find (has_email e1) (users w1) = None.
Hypothesis known_email : body known !! "email" = Some e2.
Hypothesis known_password : body known !! "password" = Some pw.
Hypothesis such_user : List.find (has_email e2) (users w2) = Some u.
Hypothesis wrong_password : bcrypt_compare bcrypt pw (password u) = false.

(** In the first revision the two failures of [login] are one and the
    same response. *)
Lemma login_failures_identical :
  fst (V1.login bcrypt sign env unknown w1)
  = Return (json 401 false "Invalid email or password")
  /\ fst (V1.login bcrypt sign env known w2)
     = fst (V1.login bcrypt sign env unknown w1).
Proof.
  unfold V1.login. js_unfold.
  rewrite lookup_runs, unknown_email, no_such_user, known_email, such_user.
  rewrite compare_runs, known_password, wrong_password. cbn. split; reflexivity.
Qed.

(** C1, second revision. An unknown email is answered with 404 and
    "User not found", a wrong password with 401 and "Invalid
    password": the two failures of [login] differ in status and in
    message. *)
Theorem login_v2_failures_differ :
  fst (V2.login bcrypt sign env unknown w1)
  = Return (json 404 false "User not found")
  /\ fst (V2.login bcrypt sign env known w2)
     = Return (json 401 false "Invalid password")
  /\ fst (V2.login bcrypt sign env known w2)
     <> fst (V2.login bcrypt sign env unknown w1).
Proof.
  unfold V2.login. js_unfold.
  rewrite lookup_runs, unknown_email, no_such_user, known_email, such_user.
  rewrite compare_runs, known_password, wrong_password. cbn.
  split; [reflexivity | split; [reflexivity | discriminate]].
Qed.

End LoginFailures.

Lemma login_v2_failures_differ_witness :
  fst (V2.login Sample.bcrypt Sample.sign Sample.env
         {| body := {[ "email" := "nobody@example.com"; "password" := "guess" ]};
            file := None; user := None |} Sample.world)
  = Return (json 404 false "User not found")
  /\ fst (V2.login Sample.bcrypt Sample.sign Sample.env
            {| body := {[ "email" := "alice@example.com"; "password" := "guess" ]};
               file := None; user := None |} Sample.world)
     = Return (json 401 false "Invalid password").
Proof.
  pose proof (login_v2_failures_differ Sample.bcrypt Sample.sign Sample.env
    {| body := {[ "email" := "nobody@example.com"; "password" := "guess" ]};
       file := None; user := None |}
    {| body := {[ "email" := "alice@example.com"; "password" := "guess" ]};
       file := None; user := None |}
    Sample.world Sample.world "nobody@example.com" "alice@example.com" "guess"
    Sample.alice eq_refl eq_refl eq_refl eq_refl eq_refl eq_refl eq_refl eq_refl)
    as (H404 & H401 & _).
  split; [exact H404 | exact H401].
Defined.

(** In the first revision every failed registration that came with an
    accepted file removes that file, and the handler never rejects. *)
Lemma register_failure_removes_upload
    (bcrypt : Bcrypt) (sign : nat -> string) (env : Env)
    (req : Request) (f : MulterFile) (w : World) :
  file req = Some f ->
  disk w !! stored_path env f = Some RegularFile ->
  exists resp w',
    V1.register bcrypt sign env req w = (Return resp, w')
    /\ (status resp <> 201 -> disk w' !! stored_path env f = None).
Proof.
  intros Hfile Hdisk.
  unfold V1.register, V1.cleanupUploadedFile. rewrite Hfile.
  rewrite cleanup_path_is_stored_path. js_unfold.
  repeat (case_match; simplify_eq; cbn [disk users status json json_error] in *);
    try (rewrite deleteFile_cases in *; cbn [disk users] in *).
  all: try rewrite Hdisk in *.
  all: simplify_eq.
  all: eexists _, _; split; [reflexivity|]; cbn; intros;
    try congruence; apply lookup_delete_eq.
Qed.

(** C2. A registration that comes with an accepted file always sends a
    response, and with every response that is not a success (the email
    is taken, or any call was rejected) the accepted file has been
    deleted and nothing else on disk has been touched; a success leaves
    the disk as it was. When the email is taken and the lookup is
    answered, the response is the 400 "Email already registered". *)
Theorem register_failure_cleans_upload
    (bcrypt : Bcrypt) (sign : nat -> string) (env : Env)
    (req : Request) (f : MulterFile) (w : World) :
  file req = Some f ->
  disk w !! stored_path env f = Some RegularFile ->
  exists resp w',
    V1.register bcrypt sign env req w = (Return resp, w')
    /\ (success resp = false ->
        disk w' = delete (stored_path env f) (disk w)
        /\ disk w' !! stored_path env f = None)
    /\ (success resp = true -> disk w' = disk w)
    /\ (forall e, body req !! "email" = Some e ->
          existsb (has_email e) (users w) = true ->
          rejects env VerifyEmail = None ->
          resp = json 400 false "Email already registered").
Proof.
  intros Hfile Hdisk.
  unfold V1.register, V1.cleanupUploadedFile. rewrite Hfile.
  rewrite cleanup_path_is_stored_path. js_unfold.
  repeat (case_match; simplify_eq;
          cbn [disk users status success json json_error] in *);
    try (rewrite deleteFile_cases in *; cbn [disk users] in *).
  all: try rewrite Hdisk in *.
  all: simplify_eq.
  all: eexists _, _; split; [reflexivity|]; cbn [success json json_error disk].
  all: split; [intros Hs; try discriminate Hs;
               (split; [reflexivity | apply lookup_delete_eq])|].
  all: split; [intros Hs; try discriminate Hs; reflexivity|].
  all: intros e' He' Htaken Hruns; congruence.
Qed.

Lemma register_failure_cleans_upload_witness :
  exists resp w',
    V1.register Sample.bcrypt Sample.sign Sample.env
      {| body := {[ "name" := "Alice"; "email" := "alice@example.com";
                    "password" := "Passw0rd!" ]};
         file := Some Sample.upload; user := None |} Sample.world
    = (Return resp, w')
    /\ resp = json 400 false "Email already registered"
    /\ disk w' !! "/srv/app/uploads/profiles/profile-1-new.png" = None.
Proof.
  destruct (register_failure_cleans_upload Sample.bcrypt Sample.sign Sample.env
              {| body := {[ "name" := "Alice"; "email" := "alice@example.com";
                            "password" := "Passw0rd!" ]};
                 file := Some Sample.upload; user := None |}
              Sample.upload Sample.world eq_refl eq_refl)
    as (resp & w' & Hrun & Hfail & _ & Hdup).
  assert (Hresp : resp = json 400 false "Email already registered")
    by (apply (Hdup "alice@example.com"); reflexivity).
  exists resp, w'. split; [exact Hrun|]. split; [exact Hresp|].
  apply Hfail. rewrite Hresp. reflexivity.
Defined.

(** C3. When the update itself is rejected after the request brought a
    replacement image, the handler answers 500, the user record is
    unchanged and still names the previous image, and the previous
    image has already been deleted from disk. *)
Theorem updateProfile_deletes_old_image_before_update (env : Env)
    (req : Request) (f : MulterFile) (id : nat) (u : User)
    (old err : string) (w : World) :
  file req = Some f ->
  user req = Some id ->
  List.find (has_id id) (users w) = Some u ->
  profileImage u = Some old ->
  old <> "" ->
  disk w !! Path.join [cwd env; old] = Some RegularFile ->
  rejects env UserFindById = None ->
  rejects env UserFindByIdAndUpdate = Some err ->
  exists w',
    V1.updateProfile env req w
    = (Return (json_error 500 "Updating profile failed" (V1.error_detail env err)), w')
    /\ users w' = users w
    /\ disk w' !! Path.join [cwd env; old] = None.
Proof.
  intros Hfile Huser Hfound Himage Hold Hdisk Hfind Hupdate.
  unfold V1.updateProfile, V1.cleanupUploadedFile. js_unfold.
  rewrite Hfile, Huser, Hfind, Hfound, Himage, Hupdate.
  unfold truthy. apply String.eqb_neq in Hold. rewrite Hold.
  cbn [negb default]. cbv [Datatypes.id].
  rewrite deleteFile_cases, Hdisk. cbv iota beta.
  rewrite deleteFile_cases. cbn [disk users].
  destruct (delete _ (disk w) !! Path.join [cwd env; _ +:+ filename f])
    as [[|]|] eqn:Hnew;
    eexists; (split; [reflexivity|]); cbn [disk users]; split; try reflexivity.
  - rewrite lookup_delete. case_decide; [reflexivity|]. apply lookup_delete_eq.
  - apply lookup_delete_eq.
  - apply lookup_delete_eq.
Qed.

Lemma updateProfile_deletes_old_image_before_update_witness :
  exists w',
    V1.updateProfile
      (Sample.env_rejecting UserFindByIdAndUpdate "Validation failed")
      {| body := {[ "name" := "Al" ]}; file := Some Sample.upload; user := Some 1 |}
      Sample.world
    = (Return (json_error 500 "Updating profile failed" "Internal server error"), w')
    /\ users w' = users Sample.world
    /\ disk w' !! "/srv/app/uploads/profiles/profile-1-old.png" = None.
Proof.
  apply (updateProfile_deletes_old_image_before_update
           (Sample.env_rejecting UserFindByIdAndUpdate "Validation failed")
           _ Sample.upload 1 Sample.alice "uploads/profiles/profile-1-old.png"
           "Validation failed" Sample.world);
    try reflexivity.
  discriminate.
Defined.

(** For a user that no longer exists [updateProfile] answers 404 and
    changes nothing, with or without a replacement image. *)
Lemma updateProfile_unknown_user (env : Env) (req : Request) (id : nat) (w : World) :
  user req = Some id ->
  List.find (has_id id) (users w) = None ->
  rejects env UserFindById = None ->
  rejects env UserFindByIdAndUpdate = None ->
  V1.updateProfile env req w = (Return (json 404 false "User not found"), w).
Proof.
  intros Huser Hnone Hfind Hupdate.
  unfold V1.updateProfile. js_unfold.
  rewrite Huser, Hfind, Hupdate.
  destruct (file req); cbn; repeat (rewrite Hnone; cbn); reflexivity.
Qed.

(** Projections of the records that an update leaves alone. *)
Lemma update_first_keeps (A : Type) (g : User -> A) (p : User -> bool)
    (f : User -> User) (us : list User) :
  (forall u, g (f u) = g u) ->
  map g (update_first p f us) = map g us.
Proof.
  intros Hf. induction us as [|u us IH]; [reflexivity|].
  cbn [update_first]. destruct (p u); cbn [map].
  - now rewrite Hf.
  - now rewrite IH.
Qed.

Lemma apply_updates_keeps_credentials (updates : gmap string string) (u : User) :
  updates !! "email" = None ->
  updates !! "password" = None ->
  (email (apply_updates updates u), password (apply_updates updates u))
  = (email u, password u).
Proof. intros He Hp. cbn. now rewrite He, Hp. Qed.

(** In the first revision no profile update changes the email or the
    password hash of any record, whatever the body holds and whether
    the update succeeds or not. *)
Lemma updateProfile_keeps_credentials (env : Env) (req : Request) (w : World) :
  map (fun u => (email u, password u)) (users (snd (V1.updateProfile env req w)))
  = map (fun u => (email u, password u)) (users w).
Proof.
  assert (Hstrip : forall (b : gmap string string) (extra : option string),
             let updates := delete "email" (delete "password" b) in
             let updates' := match extra with
                             | Some p => <["profileImage" := p]> updates
                             | None => updates
                             end in
             updates' !! "email" = None /\ updates' !! "password" = None).
  { intros b [p|]; cbn zeta; split; simplify_map_eq; reflexivity. }
  unfold V1.updateProfile, V1.cleanupUploadedFile. js_unfold.
  destruct (Hstrip (body req) None) as [He0 Hp0].
  repeat (case_match; simplify_eq; cbn [fst snd disk users] in *;
          try (rewrite deleteFile_cases in *; cbn [disk users] in *));
    try reflexivity.
  all: apply update_first_keeps; intros u';
    apply apply_updates_keeps_credentials;
    first [ exact He0 | exact Hp0
          | apply (Hstrip (body req) (Some (profile_path _))) ].
Qed.

(** C4, second revision. Only [password] is removed from the body: an
    [email] field sent by the caller is written to the user's record. *)
Theorem updateProfile_v2_writes_email (env : Env)
    (req : Request) (id : nat) (u : User) (e : string) (w : World) :
  user req = Some id ->
  List.find (has_id id) (users w) = Some u ->
  body req !! "email" = Some e ->
  rejects env UserFindByIdAndUpdate = None ->
  exists resp w' u',
    V2.updateProfile env req w = (Return resp, w')
    /\ status resp = 200
    /\ List.find (has_id id) (users w') = Some u'
    /\ email u' = e
    /\ password u' = password u.
Proof.
  intros Huser Hfound Hemail Hruns.
  unfold V2.updateProfile. js_unfold. rewrite Huser, Hruns, Hfound.
  eexists _, _, (apply_updates (delete "password" (body req)) u).
  split; [reflexivity|]. split; [reflexivity|]. cbn [users].
  split; [|split].
  - clear Huser Hruns Hemail. induction (users w) as [|x us IH]; [discriminate|].
    cbn [List.find update_first] in *. destruct (has_id id x) eqn:Hx.
    + injection Hfound as ->. cbn [List.find].
      assert (Hid : has_id id (apply_updates (delete "password" (body req)) u) = true)
        by exact Hx.
      now rewrite Hid.
    + cbn [List.find]. rewrite Hx. now apply IH.
  - cbn. rewrite lookup_delete_ne by discriminate. now rewrite Hemail.
  - cbn. now rewrite lookup_delete_eq.
Qed.

Lemma updateProfile_v2_writes_email_witness :
  exists resp w' u',
    V2.updateProfile Sample.env
      {| body := {[ "email" := "mallory@example.com"; "password" := "x" ]};
         file := None; user := Some 1 |} Sample.world = (Return resp, w')
    /\ status resp = 200
    /\ List.find (has_id 1) (users w') = Some u'
    /\ email u' = "mallory@example.com"
    /\ password u' = password Sample.alice.
Proof.
  apply (updateProfile_v2_writes_email Sample.env _ 1 Sample.alice
           "mallory@example.com" Sample.world); reflexivity.
Defined.

Lemma cleanupUploadedFile_returns (env : Env) (file : option MulterFile) (w : World) :
  exists w', V1.cleanupUploadedFile env file w = (Return tt, w')
             /\ users w' = users w.
Proof.
  unfold V1.cleanupUploadedFile. destruct file as [f|].
  - js_unfold. rewrite deleteFile_cases.
    destruct (disk w !! _) as [[|]|]; eexists; split; reflexivity.
  - exists w. split; reflexivity.
Qed.

Lemma filter_none (A : Type) (p : A -> bool) (l : list A) :
  existsb p l = false -> List.filter p l = [].
Proof.
  induction l as [|a l IH]; [reflexivity|]. cbn.
  destruct (p a); [discriminate|]. exact IH.
Qed.

(** A registration answered with 201 found the email free and appended
    one record carrying that email. *)
Lemma register_created (bcrypt : Bcrypt) (sign : nat -> string) (env : Env)
    (req : Request) (e : string) (w w1 : World) (resp : Response) :
  body req !! "email" = Some e ->
  V1.register bcrypt sign env req w = (Return resp, w1) ->
  status resp = 201 ->
  existsb (has_email e) (users w) = false
  /\ exists u, users w1 = (users w ++ [u])%list /\ email u = e.
Proof.
  intros Hemail Hrun Hstatus.
  unfold V1.register in Hrun.
  destruct (cleanupUploadedFile_returns env (file req) w) as (wc & Hc & _).
  js_unfold. rewrite Hemail in Hrun.
  destruct (rejects env VerifyEmail).
  { destruct (V1.cleanupUploadedFile env (file req) w) as [[]?]; now simplify_eq. }
  destruct (existsb (has_email e) (users w)) eqn:Hfree.
  { rewrite Hc in Hrun. now simplify_eq. }
  split; [reflexivity|].
  repeat (case_match; simplify_eq;
          cbn [users status json json_error data_name data_email] in *);
    try discriminate;
    try (match goal with
         | H : V1.cleanupUploadedFile _ _ ?w0 = _ |- _ =>
             destruct (cleanupUploadedFile_returns env (file req) w0) as (? & Hc' & _);
             rewrite Hc' in H; simplify_eq
         end; cbn in *; discriminate).
  all: eexists; split; [reflexivity | cbn in *; congruence].
Qed.

(** C5. After a registration that succeeded, a second registration with
    the same email is refused before anything is written: the
    collection is left as it was and holds exactly one record with that
    email, the response is not a success, and it is the 400 response
    "Email already registered" whenever the lookup itself is answered. *)
Theorem register_twice_same_email
    (bcrypt : Bcrypt) (sign : nat -> string) (env1 env2 : Env)
    (req1 req2 : Request) (e : string) (w w1 : World) (resp1 : Response) :
  body req1 !! "email" = Some e ->
  body req2 !! "email" = Some e ->
  V1.register bcrypt sign env1 req1 w = (Return resp1, w1) ->
  status resp1 = 201 ->
  exists resp2 w2,
    V1.register bcrypt sign env2 req2 w1 = (Return resp2, w2)
    /\ users w2 = users w1
    /\ length (List.filter (has_email e) (users w2)) = 1
    /\ status resp2 <> 201
    /\ (rejects env2 VerifyEmail = None ->
        resp2 = json 400 false "Email already registered").
Proof.
  intros Hemail1 Hemail2 Hfirst Hcreated.
  destruct (register_created _ _ _ _ _ _ _ _ Hemail1 Hfirst Hcreated)
    as (Hfree & u & Husers & Hu).
  assert (Hcount : length (List.filter (has_email e) (users w1)) = 1).
  { rewrite Husers, List.filter_app, (filter_none _ _ _ Hfree). cbn.
    unfold has_email. rewrite Hu, String.eqb_refl. reflexivity. }
  assert (Htaken : existsb (has_email e) (users w1) = true).
  { rewrite Husers, existsb_app. cbn. unfold has_email at 2.
    rewrite Hu, String.eqb_refl. now rewrite orb_true_r. }
  destruct (cleanupUploadedFile_returns env2 (file req2) w1) as (wc & Hc & Hsame).
  unfold V1.register. js_unfold. rewrite Hemail2.
  destruct (rejects env2 VerifyEmail) as [err|].
  - rewrite Hc. eexists _, wc. split; [reflexivity|].
    rewrite Hsame. repeat split; try assumption; discriminate.
  - rewrite Htaken, Hc. eexists _, wc. split; [reflexivity|].
    rewrite Hsame. repeat split; try assumption; discriminate.
Qed.

Lemma register_twice_same_email_witness :
  exists resp2 w2,
    V1.register Sample.bcrypt Sample.sign Sample.env
      {| body := {[ "name" := "Bobby"; "email" := "bob@example.com";
                    "password" := "An0ther!" ]};
         file := None; user := None |}
      (snd (V1.register Sample.bcrypt Sample.sign Sample.env
              {| body := {[ "name" := "Bob"; "email" := "bob@example.com";
                            "password" := "S3cret!x" ]};
                 file := None; user := None |} Sample.world))
    = (Return resp2, w2)
    /\ length (List.filter (has_email "bob@example.com") (users w2)) = 1
    /\ resp2 = json 400 false "Email already registered".
Proof.
  edestruct (register_twice_same_email Sample.bcrypt Sample.sign Sample.env Sample.env
    {| body := {[ "name" := "Bob"; "email" := "bob@example.com";
                  "password" := "S3cret!x" ]};
       file := None; user := None |}
    {| body := {[ "name" := "Bobby"; "email" := "bob@example.com";
                  "password" := "An0ther!" ]};
       file := None; user := None |}
    "bob@example.com" Sample.world)
    as (resp2 & w2 & Hrun & _ & Hcount & _ & Hresp).
  - vm_compute. reflexivity.
  - vm_compute. reflexivity.
  - vm_compute. reflexivity.
  - reflexivity.
  - exists resp2, w2. split; [exact Hrun|]. split; [exact Hcount|].
    apply Hresp. reflexivity.
Defined.

Lemma find_update_first (p q : User -> bool) (u u' : User) (us : list User) :
  List.find p us = Some u ->
  List.find q us = Some u ->
  q u' = true ->
  List.find q (update_first p (fun _ => u') us) = Some u'.
Proof.
  intros Hp Hq Hu'. induction us as [|x us IH]; [discriminate|].
  cbn [List.find update_first] in *.
  destruct (p x) eqn:Hpx.
  - cbn [List.find]. now rewrite Hu'.
  - destruct (q x) eqn:Hqx.
    + injection Hq as ->. apply List.find_some in Hp as [_ Hpu]. congruence.
    + cbn [List.find]. rewrite Hqx. now apply IH.
Qed.

(** [newPassword.length] counts UTF-16 code units, not bytes. *)
Example length_counts_code_units :
  Js.length "ñandú" = 5 /\ String.length "ñandú" = 7.
Proof. split; reflexivity. Qed.

Lemma sample_bcrypt_accepts_own_hash : accepts_own_hash Sample.bcrypt.
Proof. intros slt s. cbn. apply String.eqb_refl. Qed.

Lemma bcrypt72_accepts_own_hash : accepts_own_hash Demo.bcrypt72.
Proof. intros slt s. cbn. apply String.eqb_refl. Qed.

Section ChangePassword.

Context (bcrypt : Bcrypt) (sign : nat -> string) (env : Env).
Context (req : Request) (w : World) (id : nat) (u : User) (o n : string).

Hypothesis own_hash : accepts_own_hash bcrypt.
Hypothesis calls_run : forall c, rejects env c = None.
Hypothesis authenticated : user req = Some id.
Hypothesis existing : List.find (has_id id) (users w) = Some u.
Hypothesis email_identifies : List.find (has_email (email u)) (users w) = Some u.
Hypothesis old_supplied : body req !! "oldPassword" = Some o.
Hypothesis new_supplied : body req !! "newPassword" = Some n.

(** C6, as the code has it. For an existing user whose email identifies
    the record, with every awaited call answered, a [bcrypt.compare]
    that accepts a password against its own hash, and both passwords
    supplied as strings: an empty old or new password is refused with
    the 400 "required" response; otherwise a new password of 5 code
    units or less is refused with the 400 "at least 6 characters"
    response, whatever the old password is; otherwise an old password
    that does not match the stored hash is refused with 401; otherwise
    the change succeeds, after which login with the new password
    succeeds, and login with the old password fails exactly when
    [bcrypt.compare] rejects the old password against the new hash. *)
Theorem changePassword_contract :
  (o = "" \/ n = "" ->
   V1.changePassword bcrypt env req w
   = (Return (json 400 false "Old password and new password are required"), w))
  /\ (o <> "" -> n <> "" -> Js.length n <= 5 ->
      V1.changePassword bcrypt env req w
      = (Return (json 400 false "New password must be at least 6 characters long"), w))
  /\ (o <> "" -> 6 <= Js.length n ->
      bcrypt_compare bcrypt o (password u) = false ->
      V1.changePassword bcrypt env req w
      = (Return (json 401 false "Old password is incorrect"), w))
  /\ (o <> "" -> 6 <= Js.length n ->
      bcrypt_compare bcrypt o (password u) = true ->
      exists w',
        V1.changePassword bcrypt env req w
        = (Return (json 200 true "Password changed successfully"), w')
        /\ (exists resp,
               fst (V1.login bcrypt sign env (login_request (email u) n) w') = Return resp
               /\ status resp = 200 /\ success resp = true)
        /\ (bcrypt_compare bcrypt o (bcrypt_hash bcrypt (salt env) n) = false ->
            fst (V1.login bcrypt sign env (login_request (email u) o) w')
            = Return (json 401 false "Invalid email or password"))
        /\ (bcrypt_compare bcrypt o (bcrypt_hash bcrypt (salt env) n) = true ->
            exists resp,
              fst (V1.login bcrypt sign env (login_request (email u) o) w') = Return resp
              /\ status resp = 200 /\ success resp = true)).
Proof.
  assert (Htruthy : forall s, s <> "" -> truthy (Some s) = true).
  { intros s Hs. cbn. apply String.eqb_neq in Hs. now rewrite Hs. }
  assert (Hlong : 6 <= Js.length n -> n <> "").
  { intros Hlen ->. cbn in Hlen. lia. }
  split; [|split; [|split]].
  - intros Hempty. unfold V1.changePassword. js_unfold.
    rewrite old_supplied, new_supplied.
    destruct Hempty as [-> | ->]; [reflexivity|].
    cbn [truthy String.eqb negb]. now rewrite orb_true_r.
  - intros Ho Hn Hshort. unfold V1.changePassword. js_unfold.
    rewrite old_supplied, new_supplied, !Htruthy by assumption.
    cbn [negb orb default]. cbv [Datatypes.id].
    assert (Hlt : (Js.length n <? 6)%nat = true) by (apply Nat.ltb_lt; lia).
    now rewrite Hlt.
  - intros Ho Hlen Hwrong. unfold V1.changePassword. js_unfold.
    rewrite old_supplied, new_supplied, !Htruthy by auto.
    cbn [negb orb default]. cbv [Datatypes.id].
    assert (Hge : (Js.length n <? 6)%nat = false) by (apply Nat.ltb_ge; lia).
    rewrite Hge, authenticated, !calls_run. cbn.
    rewrite existing. cbn. rewrite Hwrong. reflexivity.
  - intros Ho Hlen Hright.
    assert (Hge : (Js.length n <? 6)%nat = false) by (apply Nat.ltb_ge; lia).
    pose (u' := set_password (bcrypt_hash bcrypt (salt env) n) u).
    assert (Hid : _id u = id).
    { apply List.find_some in existing as [_ H]. now apply Nat.eqb_eq in H. }
    assert (Hfound : List.find (has_email (email u))
                       (update_first (has_id (_id u')) (fun _ => u') (users w))
                     = Some u').
    { apply find_update_first with u; [cbn; now rewrite Hid | assumption |].
      unfold has_email. cbn. apply String.eqb_refl. }
    exists {| users := update_first (has_id (_id u')) (fun _ => u') (users w);
              disk := disk w |}.
    split; [|split; [|split]].
    + unfold V1.changePassword. js_unfold.
      rewrite old_supplied, new_supplied, !Htruthy by auto.
      cbn [negb orb default]. cbv [Datatypes.id].
      rewrite Hge, authenticated, !calls_run. cbn.
      rewrite existing. cbn. rewrite Hright. reflexivity.
    + eexists. unfold V1.login, login_request. js_unfold. cbn [body users].
      rewrite !calls_run. simplify_map_eq. try rewrite Hfound.
      cbn [password u' set_password]. rewrite own_hash.
      cbn. repeat split.
    + intros Hcmp. unfold V1.login, login_request. js_unfold. cbn [body users].
      rewrite !calls_run. simplify_map_eq. try rewrite Hfound.
      cbn [password u' set_password]. rewrite Hcmp. reflexivity.
    + intros Hcmp. eexists. unfold V1.login, login_request. js_unfold.
      cbn [body users].
      rewrite !calls_run. simplify_map_eq. try rewrite Hfound.
      cbn [password u' set_password]. rewrite Hcmp.
      cbn. repeat split.
Qed.

End ChangePassword.

Lemma changePassword_contract_witness :
  let change := {| body := {[ "oldPassword" := "Passw0rd!";
                              "newPassword" := "N3wPassw0rd!" ]};
                   file := None; user := Some 1 |} in
  let login_with pw := {| body := {[ "email" := "alice@example.com";
                                     "password" := pw ]};
                          file := None; user := None |} in
  exists w',
    V1.changePassword Sample.bcrypt Sample.env change Sample.world
    = (Return (json 200 true "Password changed successfully"), w')
    /\ (exists resp,
           fst (V1.login Sample.bcrypt Sample.sign Sample.env
                  (login_with "N3wPassw0rd!") w') = Return resp
           /\ status resp = 200 /\ success resp = true)
    /\ fst (V1.login Sample.bcrypt Sample.sign Sample.env
              (login_with "Passw0rd!") w')
       = Return (json 401 false "Invalid email or password").
Proof.
  intros change login_with.
  destruct (changePassword_contract Sample.bcrypt Sample.sign Sample.env
              change Sample.world 1 Sample.alice "Passw0rd!" "N3wPassw0rd!"
              sample_bcrypt_accepts_own_hash (fun _ => eq_refl)
              eq_refl eq_refl eq_refl eq_refl eq_refl)
    as (_ & _ & _ & Hchange).
  destruct Hchange as (w' & Hrun & Hnew & Hold & _);
    [discriminate | vm_compute; lia | reflexivity |].
  exists w'. split; [exact Hrun|]. split; [exact Hnew|].
  apply Hold. reflexivity.
Defined.

(** C6 as stated fails on four kinds of request by an existing user.
    (1) An old password that does not match together with a new
    password of 5 characters is answered with the 400 of the length
    check, not with 401. (2) An empty old password, which does not
    match, is answered with the 400 "required" response, not with 401.
    (3) When the lookup of the user is rejected, an old password that
    does not match is answered with 500. (4) A matching old password
    and a new password of 6 characters or more do not make login with
    the old password fail afterwards: not when the new password equals
    the old one, and not when the two differ only after the 72 bytes
    that bcrypt reads. *)
Lemma changePassword_claim_counterexample :
  let change o n := {| body := {[ "oldPassword" := o; "newPassword" := n ]};
                       file := None; user := Some 1 |} in
  let change72 := {| body := {[ "oldPassword" := Demo.long_old;
                                "newPassword" := Demo.long_new ]};
                     file := None; user := Some 4 |} in
  (bcrypt_compare Sample.bcrypt "guess" (password Sample.alice) = false
   /\ Js.length "abc12" = 5
   /\ fst (V1.changePassword Sample.bcrypt Sample.env (change "guess" "abc12")
             Sample.world)
      = Return (json 400 false "New password must be at least 6 characters long"))
  /\ (bcrypt_compare Sample.bcrypt "" (password Sample.alice) = false
      /\ fst (V1.changePassword Sample.bcrypt Sample.env (change "" "N3wPassw0rd!")
                Sample.world)
         = Return (json 400 false "Old password and new password are required"))
  /\ (fst (V1.changePassword Sample.bcrypt
             (Sample.env_rejecting UserFindById "connection lost")
             (change "guess" "N3wPassw0rd!") Sample.world)
      = Return (json_error 500 "Changing password failed" "Internal server error"))
  /\ (bcrypt_compare Sample.bcrypt "Passw0rd!" (password Sample.alice) = true
      /\ 6 <= Js.length "Passw0rd!"
      /\ fst (V1.changePassword Sample.bcrypt Sample.env
                (change "Passw0rd!" "Passw0rd!") Sample.world)
         = Return (json 200 true "Password changed successfully")
      /\ exists resp,
           fst (V1.login Sample.bcrypt Sample.sign Sample.env
                  (login_request "alice@example.com" "Passw0rd!")
                  (snd (V1.changePassword Sample.bcrypt Sample.env
                          (change "Passw0rd!" "Passw0rd!") Sample.world)))
           = Return resp
           /\ status resp = 200 /\ success resp = true)
  /\ (Demo.long_old <> Demo.long_new
      /\ bcrypt_compare Demo.bcrypt72 Demo.long_old (password Demo.dora) = true
      /\ 6 <= Js.length Demo.long_new
      /\ fst (V1.changePassword Demo.bcrypt72 Sample.env change72 Demo.world72)
         = Return (json 200 true "Password changed successfully")
      /\ exists resp,
           fst (V1.login Demo.bcrypt72 Sample.sign Sample.env
                  (login_request "dora@example.com" Demo.long_old)
                  (snd (V1.changePassword Demo.bcrypt72 Sample.env change72
                          Demo.world72)))
           = Return resp
           /\ status resp = 200 /\ success resp = true).
Proof.
  cbn zeta. split; [|split; [|split; [|split]]].
  - split; [reflexivity|]. split; reflexivity.
  - split; reflexivity.
  - vm_compute. reflexivity.
  - split; [reflexivity|]. split; [vm_compute; lia|]. split; [reflexivity|].
    eexists. split; [vm_compute; reflexivity|]. split; reflexivity.
  - split; [discriminate|]. split; [vm_compute; reflexivity|].
    split; [vm_compute; lia|]. split; [vm_compute; reflexivity|].
    eexists. split; [vm_compute; reflexivity|]. split; reflexivity.
Qed.

(** ** The quiz schema *)

Module QuizFacts.
Import Quiz.

Lemma traverse_Forall2 {A B} (f : A -> outcome B) (l : list A) (l' : list B) :
  traverse f l = Return l' -> Forall2 (fun a b => f a = Return b) l l'.
Proof.
  revert l'. induction l as [|a l IH]; intros l' H; cbn in H.
  - injection H as <-. constructor.
  - destruct (f a) as [b|] eqn:Hb; [|discriminate]. cbn in H.
    destruct (traverse f l) as [bs|] eqn:Hbs; [|discriminate]. cbn in H.
    injection H as <-. constructor; [assumption | now apply IH].
Qed.

End QuizFacts.


(** * Further properties of the code *)

(** ** Deleting several files *)

Lemma delete_each_effect (paths : list string) (s f : nat) (w : World) :
  exists s' f' w',
    delete_each paths s f w = (Return (s', f'), w')
    /\ s' + f' = s + f + length paths
    /\ size (disk w') + s' = size (disk w) + s
    /\ users w' = users w
    /\ (forall p, In p paths -> disk w' !! p <> Some RegularFile)
    /\ (forall p, ~ In p paths -> disk w' !! p = disk w !! p)
    /\ (forall p, disk w' !! p = Some RegularFile -> disk w !! p = Some RegularFile).
Proof.
  revert s f w. induction paths as [|p paths IH]; intros s f w.
  - exists s, f, w. cbn. repeat split; try lia; try tauto.
  - cbn [delete_each]. unfold mbind, js_bind. rewrite deleteFile_cases.
    destruct (disk w !! p) as [[|]|] eqn:Hp.
    + destruct (IH (S s) f {| users := users w; disk := delete p (disk w) |})
        as (s' & f' & w' & Hrun & Hsum & Hsize & Husers & Hgone & Hframe & Hmono).
      cbn [disk users] in *. exists s', f', w'. rewrite Hrun.
      split; [reflexivity|]. split; [cbn; lia|]. split.
      { rewrite map_size_delete, Hp in Hsize.
        assert (size (disk w) <> 0)
          by (intros H0; apply map_size_empty_inv in H0; rewrite H0 in Hp; discriminate).
        cbn in Hsize. lia. }
      split; [assumption|]. split; [|split].
      * intros q [<-|Hq]; [|now apply Hgone].
        intros Hreg. apply Hmono in Hreg. now rewrite lookup_delete_eq in Hreg.
      * intros q Hq. rewrite Hframe by (cbn in Hq; tauto).
        apply lookup_delete_ne. cbn in Hq. intros ->. tauto.
      * intros q Hreg. apply Hmono in Hreg.
        rewrite lookup_delete in Hreg. now case_decide.
    + destruct (IH s (S f) w)
        as (s' & f' & w' & Hrun & Hsum & Hsize & Husers & Hgone & Hframe & Hmono).
      exists s', f', w'. rewrite Hrun.
      split; [reflexivity|]. split; [cbn; lia|]. split; [assumption|].
      split; [assumption|]. split; [|split].
      * intros q [<-|Hq]; [|now apply Hgone].
        intros Hreg. apply Hmono in Hreg. congruence.
      * intros q Hq. apply Hframe. cbn in Hq. tauto.
      * assumption.
    + destruct (IH s (S f) w)
        as (s' & f' & w' & Hrun & Hsum & Hsize & Husers & Hgone & Hframe & Hmono).
      exists s', f', w'. rewrite Hrun.
      split; [reflexivity|]. split; [cbn; lia|]. split; [assumption|].
      split; [assumption|]. split; [|split].
      * intros q [<-|Hq]; [|now apply Hgone].
        intros Hreg. apply Hmono in Hreg. congruence.
      * intros q Hq. apply Hframe. cbn in Hq. tauto.
      * assumption.
Qed.

(** X1. [deleteMultipleFiles] always returns its three counters: they
    add up, [total] is the number of paths given, [successCount] is the
    number of entries that left the disk, no listed path is a regular
    file afterwards, and nothing else on disk or in the collection is
    touched. *)
Theorem deleteMultipleFiles_counts (filePaths : list string) (w : World) :
  exists r w',
    deleteMultipleFiles filePaths w = (Return r, w')
    /\ successCount r + failCount r = total r
    /\ total r = length filePaths
    /\ size (disk w') + successCount r = size (disk w)
    /\ users w' = users w
    /\ (forall p, In p filePaths -> disk w' !! p <> Some RegularFile)
    /\ (forall p, ~ In p filePaths -> disk w' !! p = disk w !! p).
Proof.
  destruct (delete_each_effect filePaths 0 0 w)
    as (s & f & w' & Hrun & Hsum & Hsize & Husers & Hgone & Hframe & _).
  exists {| successCount := s; failCount := f; total := length filePaths |}, w'.
  unfold deleteMultipleFiles, mbind, js_bind. rewrite Hrun. cbn.
  split; [reflexivity|]. split; [lia|]. split; [reflexivity|].
  split; [lia|]. split; [assumption|]. split; assumption.
Qed.

Lemma deleteMultipleFiles_counts_witness :
  exists r w',
    deleteMultipleFiles
      ["/srv/app/uploads/profiles/profile-1-old.png";
       "/srv/app/uploads/documents/missing.pdf";
       "/srv/app/uploads/profiles/profile-1-old.png";
       "/srv/app/uploads"] Demo.world = (Return r, w')
    /\ successCount r + failCount r = 4
    /\ disk w' !! "/srv/app/uploads/profiles/profile-1-old.png" <> Some RegularFile
    /\ disk w' !! "/srv/app/uploads/documents/doc-2-notes.pdf" = Some RegularFile.
Proof.
  destruct (deleteMultipleFiles_counts
              ["/srv/app/uploads/profiles/profile-1-old.png";
               "/srv/app/uploads/documents/missing.pdf";
               "/srv/app/uploads/profiles/profile-1-old.png";
               "/srv/app/uploads"] Demo.world)
    as (r & w' & Hrun & Hsum & Htotal & _ & _ & Hgone & Hframe).
  exists r, w'. split; [exact Hrun|]. split; [now rewrite Hsum, Htotal|].
  split; [apply Hgone; left; reflexivity|].
  rewrite Hframe; [reflexivity|].
  cbn. intros [H|[H|[H|[H|[]]]]]; discriminate.
Defined.

(** ** The two allow-lists *)

(** X2. No file passes both the image filter and the document filter:
    the two content-type lists have no entry in common. *)
Theorem image_and_document_filters_disjoint (f : MulterFile) :
  ~ (validateFileType f ALLOWED_IMAGE_TYPES = true
     /\ validateFileType f ALLOWED_DOCUMENT_TYPES = true).
Proof.
  intros [Himg Hdoc].
  apply validateFileType_iff in Himg as [_ Himg].
  apply validateFileType_iff in Hdoc as [_ Hdoc].
  cbn in Himg, Hdoc.
  repeat (destruct Himg as [Himg | Himg];
          [rewrite <- Himg in Hdoc;
           repeat (destruct Hdoc as [Hdoc | Hdoc]; [discriminate|]); exact Hdoc|]).
  exact Himg.
Qed.

(** ** Letter case of the file name *)

Lemma lower_ascii_eqb_slash (c : ascii) :
  Ascii.eqb (Js.lower_ascii c) "/" = Ascii.eqb c "/".
Proof. destruct c as [[] [] [] [] [] [] [] []]; reflexivity. Qed.

Lemma lower_ascii_eqb_dot (c : ascii) :
  Ascii.eqb (Js.lower_ascii c) "." = Ascii.eqb c ".".
Proof. destruct c as [[] [] [] [] [] [] [] []]; reflexivity. Qed.

Lemma lower_ascii_idempotent (c : ascii) :
  Js.lower_ascii (Js.lower_ascii c) = Js.lower_ascii c.
Proof. destruct c as [[] [] [] [] [] [] [] []]; reflexivity. Qed.

Lemma toLowerCase_idempotent (s : string) :
  Js.toLowerCase (Js.toLowerCase s) = Js.toLowerCase s.
Proof.
  induction s as [|c s IH]; [reflexivity|].
  cbn. now rewrite lower_ascii_idempotent, IH.
Qed.

Lemma toLowerCase_chars (s : string) :
  list_ascii_of_string (Js.toLowerCase s)
  = map Js.lower_ascii (list_ascii_of_string s).
Proof. induction s as [|c s IH]; [reflexivity|]. cbn. now rewrite IH. Qed.

Lemma extname_step_lower (i : nat) (c : ascii) (st : Path.scan) :
  Path.extname_step i (Js.lower_ascii c) st = Path.extname_step i c st.
Proof.
  unfold Path.extname_step.
  now rewrite lower_ascii_eqb_slash, lower_ascii_eqb_dot.
Qed.

Lemma extname_loop_lower (l : list ascii) (n : nat) (st : Path.scan) :
  Path.extname_loop (map Js.lower_ascii l) n st = Path.extname_loop l n st.
Proof.
  revert n st. induction l as [|c l IH]; intros [|n] st; try reflexivity.
  cbn [map Path.extname_loop]. rewrite extname_step_lower.
  destruct (Path.extname_step n c st); [reflexivity | apply IH].
Qed.

Lemma substring_lower (i k : nat) (s : string) :
  String.substring i k (Js.toLowerCase s) = Js.toLowerCase (String.substring i k s).
Proof.
  revert i k. induction s as [|c s IH]; intros [|i] [|k]; try reflexivity.
  - cbn. now rewrite IH.
  - cbn. apply IH.
  - cbn. apply IH.
Qed.

Lemma extname_lower (p : string) :
  Path.extname (Js.toLowerCase p) = Js.toLowerCase (Path.extname p).
Proof.
  unfold Path.extname.
  rewrite toLowerCase_chars, <- map_rev, length_map, extname_loop_lower.
  destruct (Path.startDot _) as [sd|]; [|reflexivity].
  destruct (Path.end_ _) as [e|]; [|reflexivity].
  destruct (_ || _); [reflexivity|].
  unfold Js.slice. apply substring_lower.
Qed.

(** X3. File names that differ only in letter case get the same answer
    from [validateFileType], for the same declared content type. *)
Theorem validateFileType_ignores_name_case
    (f g : MulterFile) (types : AllowedTypes) :
  Js.toLowerCase (originalname f) = Js.toLowerCase (originalname g) ->
  mimetype f = mimetype g ->
  validateFileType f types = validateFileType g types.
Proof.
  intros Hname Hmime. unfold validateFileType.
  rewrite <- !extname_lower, Hname, Hmime. reflexivity.
Qed.

Lemma validateFileType_ignores_name_case_witness :
  validateFileType
    {| originalname := "Resume.PDF"; mimetype := "application/pdf";
       filename := "doc-1-resume.pdf"; file_size := 1024 |} ALLOWED_DOCUMENT_TYPES
  = validateFileType Sample.resume_pdf ALLOWED_DOCUMENT_TYPES.
Proof. apply validateFileType_ignores_name_case; reflexivity. Defined.

(** ** Every handler answers *)

Ltac handler_cases :=
  js_unfold;
  repeat (case_match; simplify_eq;
          try (rewrite deleteFile_cases in *; cbn [disk users] in *)).

Lemma v1_register_answers (bcrypt : Bcrypt) (sign : nat -> string) (env : Env)
    (req : Request) (w : World) :
  exists resp w', V1.register bcrypt sign env req w = (Return resp, w')
                  /\ envelope_ok resp = true.
Proof.
  unfold V1.register, V1.cleanupUploadedFile. handler_cases;
    eexists _, _; split; reflexivity.
Qed.

Lemma v1_login_answers (bcrypt : Bcrypt) (sign : nat -> string) (env : Env)
    (req : Request) (w : World) :
  exists resp, V1.login bcrypt sign env req w = (Return resp, w)
               /\ envelope_ok resp = true.
Proof.
  unfold V1.login. handler_cases; eexists; split; reflexivity.
Qed.

Lemma v1_updateProfile_answers (env : Env) (req : Request) (w : World) :
  exists resp w', V1.updateProfile env req w = (Return resp, w')
                  /\ envelope_ok resp = true.
Proof.
  unfold V1.updateProfile, V1.cleanupUploadedFile. handler_cases;
    eexists _, _; split; reflexivity.
Qed.

Lemma v1_changePassword_answers (bcrypt : Bcrypt) (env : Env)
    (req : Request) (w : World) :
  exists resp w', V1.changePassword bcrypt env req w = (Return resp, w')
                  /\ envelope_ok resp = true.
Proof.
  unfold V1.changePassword. handler_cases; eexists _, _; split; reflexivity.
Qed.

Lemma v1_getProfile_answers (env : Env) (req : Request) (w : World) :
  exists resp, V1_more.getProfile env req w = (Return resp, w)
               /\ envelope_ok resp = true.
Proof.
  unfold V1_more.getProfile. handler_cases; eexists; split; reflexivity.
Qed.

Lemma v2_register_answers (bcrypt : Bcrypt) (sign : nat -> string) (env : Env)
    (req : Request) (w : World) :
  exists resp w', V2.register bcrypt sign env req w = (Return resp, w')
                  /\ envelope_ok resp = true.
Proof.
  unfold V2.register. handler_cases; eexists _, _; split; reflexivity.
Qed.

Lemma v2_login_answers (bcrypt : Bcrypt) (sign : nat -> string) (env : Env)
    (req : Request) (w : World) :
  exists resp, V2.login bcrypt sign env req w = (Return resp, w)
               /\ envelope_ok resp = true.
Proof.
  unfold V2.login. handler_cases; eexists; split; reflexivity.
Qed.

Lemma v2_updateProfile_answers (env : Env) (req : Request) (w : World) :
  exists resp w', V2.updateProfile env req w = (Return resp, w')
                  /\ envelope_ok resp = true.
Proof.
  unfold V2.updateProfile. handler_cases; eexists _, _; split; reflexivity.
Qed.

Lemma v2_changePassword_answers (bcrypt : Bcrypt) (env : Env)
    (req : Request) (w : World) :
  exists resp w', V2_more.changePassword bcrypt env req w = (Return resp, w')
                  /\ envelope_ok resp = true.
Proof.
  unfold V2_more.changePassword. handler_cases; eexists _, _; split; reflexivity.
Qed.

Lemma v2_getProfile_answers (env : Env) (req : Request) (w : World) :
  exists resp, V2_more.getProfile env req w = (Return resp, w)
               /\ envelope_ok resp = true.
Proof.
  unfold V2_more.getProfile. handler_cases; eexists; split; reflexivity.
Qed.

(** X4. Every handler of both revisions sends a response for every
    request, whatever call the environment rejects: no handler lets an
    error escape, and the response has one of the three envelope shapes
    (success without error; 400, 401 or 404 without error, data or
    cookie; 500 with an error and without data or cookie). *)
Theorem handlers_always_answer
    (bcrypt : Bcrypt) (sign : nat -> string) (env : Env)
    (handler : Request -> js Response) :
  In handler
     [V1.register bcrypt sign env; V1.login bcrypt sign env;
      V1.updateProfile env; V1.changePassword bcrypt env;
      V1_more.getProfile env;
      V2.register bcrypt sign env; V2.login bcrypt sign env;
      V2.updateProfile env; V2_more.changePassword bcrypt env;
      V2_more.getProfile env] ->
  forall (req : Request) (w : World),
  exists resp w', handler req w = (Return resp, w') /\ envelope_ok resp = true.
Proof.
  intros Hin req w. cbn [In] in Hin.
  repeat (destruct Hin as [<- | Hin]); try contradiction.
  - apply v1_register_answers.
  - destruct (v1_login_answers bcrypt sign env req w) as (r & H); eauto.
  - apply v1_updateProfile_answers.
  - apply v1_changePassword_answers.
  - destruct (v1_getProfile_answers env req w) as (r & H); eauto.
  - apply v2_register_answers.
  - destruct (v2_login_answers bcrypt sign env req w) as (r & H); eauto.
  - apply v2_updateProfile_answers.
  - apply v2_changePassword_answers.
  - destruct (v2_getProfile_answers env req w) as (r & H); eauto.
Qed.

Lemma handlers_always_answer_witness :
  exists resp w',
    V1.changePassword Sample.bcrypt
      (Sample.env_rejecting UserSave "connection lost")
      {| body := {[ "oldPassword" := "Passw0rd!"; "newPassword" := "N3wPassw0rd!" ]};
         file := None; user := Some 1 |} Sample.world = (Return resp, w')
    /\ envelope_ok resp = true.
Proof.
  apply (handlers_always_answer Sample.bcrypt Sample.sign
           (Sample.env_rejecting UserSave "connection lost")
           (V1.changePassword Sample.bcrypt
              (Sample.env_rejecting UserSave "connection lost"))).
  cbn [In]. tauto.
Defined.

(** X5. [login] and [getProfile] only read: in both revisions the
    collection and the disk are the same after the call as before, for
    every request and every environment. *)
Theorem login_and_getProfile_only_read
    (bcrypt : Bcrypt) (sign : nat -> string) (env : Env)
    (handler : Request -> js Response) :
  In handler
     [V1.login bcrypt sign env; V1_more.getProfile env;
      V2.login bcrypt sign env; V2_more.getProfile env] ->
  forall (req : Request) (w : World), snd (handler req w) = w.
Proof.
  intros Hin req w. cbn [In] in Hin.
  repeat (destruct Hin as [<- | Hin]); try contradiction.
  - destruct (v1_login_answers bcrypt sign env req w) as (r & -> & _); reflexivity.
  - destruct (v1_getProfile_answers env req w) as (r & -> & _); reflexivity.
  - destruct (v2_login_answers bcrypt sign env req w) as (r & -> & _); reflexivity.
  - destruct (v2_getProfile_answers env req w) as (r & -> & _); reflexivity.
Qed.

Lemma login_and_getProfile_only_read_witness :
  snd (V1.login Sample.bcrypt Sample.sign Sample.env
         (login_request "alice@example.com" "Passw0rd!") Sample.world)
  = Sample.world.
Proof.
  apply (login_and_getProfile_only_read Sample.bcrypt Sample.sign Sample.env
           (V1.login Sample.bcrypt Sample.sign Sample.env)).
  cbn [In]. tauto.
Defined.

(** ** What the handlers do to the collection *)

Lemma fresh_id_above (us : list User) (i : nat) :
  In i (map _id us) -> i < fresh_id us.
Proof.
  unfold fresh_id. induction us as [|u us IH]; cbn; [tauto|].
  intros [<-|Hin]; [lia|]. apply IH in Hin. lia.
Qed.

Lemma existsb_has_email (e : string) (us : list User) :
  existsb (has_email e) us = false -> ~ In e (map email us).
Proof.
  induction us as [|u us IH]; cbn; [tauto|].
  intros H. apply orb_false_elim in H as [Hu Hrest].
  intros [Heq|Hin]; [|now apply IH].
  unfold has_email in Hu. rewrite Heq, String.eqb_refl in Hu. discriminate.
Qed.

Lemma store_ok_append (w : World) (u : User) (d : gmap string node) :
  store_ok w ->
  existsb (has_email (email u)) (users w) = false ->
  _id u = fresh_id (users w) ->
  store_ok {| users := users w ++ [u]; disk := d |}.
Proof.
  intros [Hemails Hids] Hfree Hfresh. unfold store_ok. cbn [users].
  rewrite !map_app. cbn [map]. split.
  - apply NoDup_app. split; [assumption|]. split; [|apply NoDup_singleton].
    intros e He Hin. apply list_elem_of_In in He.
    apply list_elem_of_singleton in Hin. subst e.
    now apply existsb_has_email in Hfree.
  - apply NoDup_app. split; [assumption|]. split; [|apply NoDup_singleton].
    intros i Hi Hin. apply list_elem_of_In in Hi.
    apply list_elem_of_singleton in Hin. subst i.
    apply fresh_id_above in Hi. lia.
Qed.

Lemma update_first_found_keeps (A : Type) (g : User -> A) (p : User -> bool)
    (u u' : User) (us : list User) :
  List.find p us = Some u ->
  g u' = g u ->
  map g (update_first p (fun _ => u') us) = map g us.
Proof.
  intros Hfound Hg. induction us as [|x us IH]; [reflexivity|].
  cbn [List.find update_first] in *. destruct (p x).
  - injection Hfound as ->. cbn. now rewrite Hg.
  - cbn. now rewrite IH.
Qed.

Lemma store_ok_same_keys (w w' : World) :
  map email (users w') = map email (users w) ->
  map _id (users w') = map _id (users w) ->
  store_ok w -> store_ok w'.
Proof. unfold store_ok. intros -> ->. tauto. Qed.

Lemma v1_register_store_ok (bcrypt : Bcrypt) (sign : nat -> string) (env : Env)
    (req : Request) (w : World) :
  store_ok w -> store_ok (snd (V1.register bcrypt sign env req w)).
Proof.
  intros Hok. unfold V1.register, V1.cleanupUploadedFile.
  handler_cases; cbn [snd data_name data_email] in *; simplify_eq;
    try assumption;
    try (match goal with
         | H : store_ok ?w0 |- store_ok {| users := users ?w0; disk := _ |} =>
             apply (store_ok_same_keys w0); [reflexivity | reflexivity | exact H]
         | |- store_ok {| users := users ?w0 ++ [?u]; disk := ?d |} =>
             apply (store_ok_append w0 u d);
             [assumption | cbn; assumption | reflexivity]
         end).
Qed.

Lemma v1_changePassword_store_ok (bcrypt : Bcrypt) (env : Env)
    (req : Request) (w : World) :
  store_ok w -> store_ok (snd (V1.changePassword bcrypt env req w)).
Proof.
  intros Hok. unfold V1.changePassword.
  handler_cases; cbn [snd]; try assumption;
    (match goal with
     | H : store_ok ?w0 |- _ => apply (store_ok_same_keys w0); [| |exact H]
     end; cbn [users];
     match goal with
     | H : List.find (has_id ?i) (users _) = Some ?u |- _ =>
         assert (Hi : _id u = i)
           by (apply List.find_some in H as [_ H']; now apply Nat.eqb_eq in H');
         cbn [set_password _id]; rewrite Hi;
         apply update_first_found_keeps with u; [exact H | reflexivity]
     end).
Qed.

(** X6. [register], [login], [changePassword] and [getProfile] of the
    first revision keep emails and identifiers unique: from a
    collection without two records of the same email or the same
    identifier they lead to such a collection again, for every request
    and every environment. *)
Theorem v1_handlers_keep_store_ok
    (bcrypt : Bcrypt) (sign : nat -> string) (env : Env)
    (handler : Request -> js Response) (req : Request) (w : World) :
  In handler
     [V1.register bcrypt sign env; V1.login bcrypt sign env;
      V1.changePassword bcrypt env; V1_more.getProfile env] ->
  store_ok w ->
  store_ok (snd (handler req w)).
Proof.
  intros Hin Hok. cbn [In] in Hin.
  repeat (destruct Hin as [<- | Hin]); try contradiction.
  - now apply v1_register_store_ok.
  - destruct (v1_login_answers bcrypt sign env req w) as (r & -> & _). exact Hok.
  - now apply v1_changePassword_store_ok.
  - destruct (v1_getProfile_answers env req w) as (r & -> & _). exact Hok.
Qed.

Lemma v1_handlers_keep_store_ok_witness :
  store_ok
    (snd (V1.register Sample.bcrypt Sample.sign Sample.env
            {| body := {[ "name" := "Carol"; "email" := "carol@example.com";
                          "password" := "C4rol!pw" ]};
               file := None; user := None |} Demo.world)).
Proof.
  apply (v1_handlers_keep_store_ok Sample.bcrypt Sample.sign Sample.env
           (V1.register Sample.bcrypt Sample.sign Sample.env)).
  - cbn [In]. tauto.
  - split; cbn; apply (bool_decide_unpack _); exact I.
Defined.

(** ** Registration, then login *)

Lemma find_app_new (p : User -> bool) (us : list User) (u : User) :
  existsb p us = false -> p u = true -> List.find p (us ++ [u]) = Some u.
Proof.
  intros Hnone Hu. induction us as [|x us IH]; cbn in *.
  - now rewrite Hu.
  - apply orb_false_elim in Hnone as [Hx Hrest]. rewrite Hx. now apply IH.
Qed.

(** A registration answered with 201 stored the hash of the password
    that was sent and answered with the view and token of the record it
    appended. *)
Lemma register_created_record (bcrypt : Bcrypt) (sign : nat -> string) (env : Env)
    (req : Request) (e pw : string) (w w1 : World) (resp : Response) :
  body req !! "email" = Some e ->
  body req !! "password" = Some pw ->
  V1.register bcrypt sign env req w = (Return resp, w1) ->
  status resp = 201 ->
  exists u,
    users w1 = (users w ++ [u])%list
    /\ existsb (has_email e) (users w) = false
    /\ email u = e
    /\ password u = bcrypt_hash bcrypt (salt env) pw
    /\ data resp = Some (AuthData (V1.formatUserResponse u) (sign (_id u)))
    /\ cookie resp = Some (V1.setAuthCookie env (sign (_id u))).
Proof.
  intros Hemail Hpw Hrun Hstatus.
  unfold V1.register, V1.cleanupUploadedFile in Hrun.
  rewrite Hemail, Hpw in Hrun.
  handler_cases; cbn [status json json_error data_name data_email] in *;
    try discriminate; simplify_eq.
  all: eexists; cbn; repeat split; assumption.
Qed.

(** X7. After a registration that was answered with 201, login with the
    same email and password succeeds, changes nothing, and returns the
    view of the record that the registration created together with a
    token that the signing function of the login makes for that
    record's identifier. *)
Theorem register_then_login
    (bcrypt : Bcrypt) (sign sign' : nat -> string) (env env' : Env)
    (req : Request) (e pw : string) (w w1 : World) (resp : Response) :
  accepts_own_hash bcrypt ->
  (forall c, rejects env' c = None) ->
  body req !! "email" = Some e ->
  body req !! "password" = Some pw ->
  V1.register bcrypt sign env req w = (Return resp, w1) ->
  status resp = 201 ->
  exists u resp',
    V1.login bcrypt sign' env' (login_request e pw) w1 = (Return resp', w1)
    /\ status resp' = 200
    /\ data resp = Some (AuthData (V1.formatUserResponse u) (sign (_id u)))
    /\ data resp' = Some (AuthData (V1.formatUserResponse u) (sign' (_id u))).
Proof.
  intros Hown Hruns Hemail Hpw Hrun Hstatus.
  destruct (register_created_record _ _ _ _ _ _ _ _ _ Hemail Hpw Hrun Hstatus)
    as (u & Husers & Hfree & Hu & Hhash & Hdata & _).
  assert (Hfound : List.find (has_email e) (users w1) = Some u).
  { rewrite Husers. apply find_app_new; [assumption|].
    unfold has_email. rewrite Hu. apply String.eqb_refl. }
  exists u. unfold V1.login, login_request. js_unfold. cbn [body].
  rewrite !Hruns. simplify_map_eq.
  rewrite Hhash, Hown. cbn.
  eexists. split; [reflexivity|]. split; [reflexivity|].
  split; [exact Hdata | reflexivity].
Qed.

Lemma register_then_login_witness :
  exists resp',
    V1.login Sample.bcrypt Demo.unary_sign Sample.env
      (login_request "carol@example.com" "C4rol!pw")
      (snd (V1.register Sample.bcrypt Sample.sign Sample.env
              {| body := {[ "name" := "Carol"; "email" := "carol@example.com";
                            "password" := "C4rol!pw" ]};
                 file := None; user := None |} Demo.world))
    = (Return resp',
       snd (V1.register Sample.bcrypt Sample.sign Sample.env
              {| body := {[ "name" := "Carol"; "email" := "carol@example.com";
                            "password" := "C4rol!pw" ]};
                 file := None; user := None |} Demo.world))
    /\ status resp' = 200.
Proof.
  edestruct (register_then_login Sample.bcrypt Sample.sign Demo.unary_sign
               Sample.env Sample.env
               {| body := {[ "name" := "Carol"; "email" := "carol@example.com";
                             "password" := "C4rol!pw" ]};
                  file := None; user := None |}
               "carol@example.com" "C4rol!pw" Demo.world)
    as (u & resp' & Hlogin & Hstatus & _).
  - exact sample_bcrypt_accepts_own_hash.
  - intros c. reflexivity.
  - reflexivity.
  - reflexivity.
  - vm_compute. reflexivity.
  - reflexivity.
  - exists resp'. split; [exact Hlogin | exact Hstatus].
Defined.

(** ** Changing a password *)

Section ChangePasswordV2.

Context (bcrypt : Bcrypt) (sign : nat -> string) (env : Env).
Context (req : Request) (w : World) (id : nat) (u : User) (o n : string).

Hypothesis own_hash : accepts_own_hash bcrypt.
Hypothesis calls_run : forall c, rejects env c = None.
Hypothesis authenticated : user req = Some id.
Hypothesis existing : List.find (has_id id) (users w) = Some u.
Hypothesis email_identifies : List.find (has_email (email u)) (users w) = Some u.
Hypothesis old_supplied : body req !! "oldPassword" = Some o.
Hypothesis new_supplied : body req !! "newPassword" = Some n.
Hypothesis new_not_empty : n <> "".
Hypothesis old_matches : bcrypt_compare bcrypt o (password u) = true.
Hypothesis old_not_empty : o <> "".

(** X8. The second revision of [changePassword] has no minimum length:
    with a matching old password it accepts every non-empty new
    password, however short, and login with it succeeds afterwards;
    the first revision answers the same request with 400 when the new
    password has fewer than 6 code units. Of [bcrypt] only this is
    assumed: [compare] accepts a password against its own hash. *)
Theorem changePassword_v2_accepts_short_password :
  (exists w',
      V2_more.changePassword bcrypt env req w
      = (Return (json 200 true "Password changed successfully"), w')
      /\ exists resp,
           fst (V2.login bcrypt sign env (login_request (email u) n) w') = Return resp
           /\ status resp = 200)
  /\ (Js.length n < 6 ->
      V1.changePassword bcrypt env req w
      = (Return (json 400 false "New password must be at least 6 characters long"), w)).
Proof.
  assert (Hold : truthy (Some o) = true).
  { cbn. apply String.eqb_neq in old_not_empty. now rewrite old_not_empty. }
  assert (Hnew : truthy (Some n) = true).
  { cbn. apply String.eqb_neq in new_not_empty. now rewrite new_not_empty. }
  split.
  - pose (u' := set_password (bcrypt_hash bcrypt (salt env) n) u).
    assert (Hid : _id u = id).
    { apply List.find_some in existing as [_ H]. now apply Nat.eqb_eq in H. }
    assert (Hfound : List.find (has_email (email u))
                       (update_first (has_id (_id u')) (fun _ => u') (users w))
                     = Some u').
    { apply find_update_first with u; [cbn; now rewrite Hid | assumption |].
      unfold has_email. cbn. apply String.eqb_refl. }
    exists {| users := update_first (has_id (_id u')) (fun _ => u') (users w);
              disk := disk w |}.
    split.
    + unfold V2_more.changePassword. js_unfold.
      rewrite old_supplied, new_supplied, Hold, Hnew. cbn [negb orb].
      rewrite authenticated, !calls_run. cbn.
      rewrite existing. cbn. rewrite old_matches. reflexivity.
    + eexists. unfold V2.login, login_request. js_unfold. cbn [body users].
      rewrite !calls_run. simplify_map_eq. try rewrite Hfound.
      cbn [password u' set_password]. rewrite own_hash.
      cbn. split; reflexivity.
  - intros Hshort. unfold V1.changePassword. js_unfold.
    rewrite old_supplied, new_supplied, Hold, Hnew. cbn [negb orb default].
    cbv [Datatypes.id].
    assert (Hlt : (Js.length n <? 6)%nat = true) by (apply Nat.ltb_lt; lia).
    now rewrite Hlt.
Qed.

End ChangePasswordV2.

Lemma changePassword_v2_accepts_short_password_witness :
  let change := {| body := {[ "oldPassword" := "Passw0rd!"; "newPassword" := "x" ]};
                   file := None; user := Some 1 |} in
  (exists w',
      V2_more.changePassword Sample.bcrypt Sample.env change Sample.world
      = (Return (json 200 true "Password changed successfully"), w')
      /\ exists resp,
           fst (V2.login Sample.bcrypt Sample.sign Sample.env
                  (login_request "alice@example.com" "x") w') = Return resp
           /\ status resp = 200)
  /\ V1.changePassword Sample.bcrypt Sample.env change Sample.world
     = (Return (json 400 false "New password must be at least 6 characters long"),
        Sample.world).
Proof.
  intros change.
  destruct (changePassword_v2_accepts_short_password
              Sample.bcrypt Sample.sign Sample.env change Sample.world
              1 Sample.alice "Passw0rd!" "x"
              sample_bcrypt_accepts_own_hash (fun _ => eq_refl) eq_refl eq_refl eq_refl
              eq_refl eq_refl ltac:(discriminate) eq_refl ltac:(discriminate))
    as [Hv2 Hv1].
  split; [exact Hv2|]. apply Hv1. vm_compute. lia.
Defined.

(** Everything of a record but its password hash. *)
Lemma changePassword_effect (bcrypt : Bcrypt) (env : Env) (req : Request) (w : World) :
  let w' := snd (V1.changePassword bcrypt env req w) in
  w' = w
  \/ exists id u h,
       user req = Some id
       /\ List.find (has_id id) (users w) = Some u
       /\ w' = {| users := update_first (has_id id) (fun _ => set_password h u) (users w);
                  disk := disk w |}.
Proof.
  unfold V1.changePassword.
  handler_cases; cbn [snd]; try (left; reflexivity).
  right.
  match goal with
  | H : List.find (has_id ?i) (users _) = Some ?u |- _ =>
      assert (Hi : _id u = i)
        by (apply List.find_some in H as [_ H']; now apply Nat.eqb_eq in H');
      eexists i, u, _; split; [reflexivity|]; split; [exact H|];
      cbn [set_password _id]; rewrite Hi; reflexivity
  end.
Qed.

Lemma update_first_const_others (p : User -> bool) (u' : User) (us : list User) :
  p u' = true ->
  List.filter (fun u => negb (p u)) (update_first p (fun _ => u') us)
  = List.filter (fun u => negb (p u)) us.
Proof.
  intros Hp. induction us as [|x us IH]; [reflexivity|].
  cbn [update_first]. destruct (p x) eqn:Hx; cbn [List.filter].
  - now rewrite Hp, Hx.
  - now rewrite Hx, IH.
Qed.

(** X9. [changePassword] writes nothing but one password hash: the disk
    is untouched, every record keeps its identifier, name, email,
    profile image and creation time, and the records of other
    identifiers than the requester's are the same as before, whatever
    the request and the environment. *)
Theorem changePassword_writes_one_hash
    (bcrypt : Bcrypt) (env : Env) (req : Request) (w : World) :
  let w' := snd (V1.changePassword bcrypt env req w) in
  disk w' = disk w
  /\ map (set_password "") (users w') = map (set_password "") (users w)
  /\ forall id, user req = Some id ->
       List.filter (fun u => negb (has_id id u)) (users w')
       = List.filter (fun u => negb (has_id id u)) (users w).
Proof.
  cbn zeta.
  destruct (changePassword_effect bcrypt env req w)
    as [-> | (id & u & h & Huser & Hfound & ->)].
  { repeat split; reflexivity. }
  cbn [disk users]. split; [reflexivity|]. split.
  - apply update_first_found_keeps with u; [assumption | reflexivity].
  - intros id' Hid'. rewrite Huser in Hid'. injection Hid' as <-.
    apply update_first_const_others.
    apply List.find_some in Hfound as [_ H']. exact H'.
Qed.

Lemma changePassword_writes_one_hash_witness :
  List.filter (fun u => negb (has_id 1 u))
    (users (snd (V1.changePassword Sample.bcrypt Sample.env
                   {| body := {[ "oldPassword" := "Passw0rd!";
                                 "newPassword" := "N3wPassw0rd!" ]};
                      file := None; user := Some 1 |} Demo.world)))
  = [Demo.bob].
Proof.
  rewrite (proj2 (proj2 (changePassword_writes_one_hash Sample.bcrypt Sample.env
                           {| body := {[ "oldPassword" := "Passw0rd!";
                                         "newPassword" := "N3wPassw0rd!" ]};
                              file := None; user := Some 1 |} Demo.world)) 1 eq_refl).
  reflexivity.
Defined.

(** ** Replacing the profile image *)

Lemma find_update_first_same (p : User -> bool) (f : User -> User)
    (u : User) (us : list User) :
  List.find p us = Some u ->
  p (f u) = true ->
  List.find p (update_first p f us) = Some (f u).
Proof.
  intros Hfound Hp. induction us as [|x us IH]; [discriminate|].
  cbn [List.find update_first] in *. destruct (p x) eqn:Hx.
  - injection Hfound as ->. cbn [List.find]. now rewrite Hp.
  - cbn [List.find]. rewrite Hx. now apply IH.
Qed.

(** X10. A profile update with a replacement image that goes through
    answers 200, stores the path of the new file on the user's record,
    keeps the new file on disk and leaves no file at the path of the
    previous image. *)
Theorem updateProfile_replaces_image (env : Env)
    (req : Request) (f : MulterFile) (id : nat) (u : User)
    (old : string) (w : World) :
  file req = Some f ->
  user req = Some id ->
  List.find (has_id id) (users w) = Some u ->
  profileImage u = Some old ->
  old <> "" ->
  old <> profile_path f ->
  disk w !! Path.join [cwd env; profile_path f] = Some RegularFile ->
  rejects env UserFindById = None ->
  rejects env UserFindByIdAndUpdate = None ->
  exists resp w' u',
    V1.updateProfile env req w = (Return resp, w')
    /\ status resp = 200
    /\ List.find (has_id id) (users w') = Some u'
    /\ profileImage u' = Some (profile_path f)
    /\ disk w' !! Path.join [cwd env; profile_path f] = Some RegularFile
    /\ disk w' !! Path.join [cwd env; old] <> Some RegularFile.
Proof.
  intros Hfile Huser Hfound Himage Hold Hdiff Hnew Hfind Hupdate.
  assert (Hpaths : Path.join [cwd env; old] <> Path.join [cwd env; profile_path f]).
  { unfold Path.join. intros H.
    change (cwd env +:+ "/" +:+ old = cwd env +:+ "/" +:+ profile_path f) in H.
    apply String.app_inj in H. apply String.app_inj in H. contradiction. }
  unfold V1.updateProfile, V1.cleanupUploadedFile. js_unfold.
  rewrite Hfile, Huser, Hfind, Hfound, Himage, Hupdate.
  unfold truthy. apply String.eqb_neq in Hold. rewrite Hold.
  cbn [negb default]. cbv [Datatypes.id].
  rewrite deleteFile_cases.
  set (upd := <["profileImage" := profile_path f]>
                (delete "email" (delete "password" (body req)))).
  assert (Hid : has_id id (apply_updates upd u) = true).
  { apply List.find_some in Hfound as [_ H']. exact H'. }
  destruct (disk w !! Path.join [cwd env; old]) as [[|]|] eqn:Hdisk;
    cbv iota beta; cbn [users disk]; rewrite Hfound; cbv iota beta;
    eexists _, _, (apply_updates upd u);
    (split; [reflexivity|]); (split; [reflexivity|]); cbn [users disk];
    (split; [now apply find_update_first_same|]);
    (split; [cbn; unfold upd; now rewrite lookup_insert_eq|]).
  - split; [now rewrite lookup_delete_ne | rewrite lookup_delete_eq; discriminate].
  - split; [assumption | congruence].
  - split; [assumption | congruence].
Qed.

Lemma updateProfile_replaces_image_witness :
  exists resp w' u',
    V1.updateProfile Sample.env
      {| body := {[ "name" := "Alice B." ]}; file := Some Sample.upload;
         user := Some 1 |} Sample.world = (Return resp, w')
    /\ status resp = 200
    /\ List.find (has_id 1) (users w') = Some u'
    /\ profileImage u' = Some "uploads/profiles/profile-1-new.png"
    /\ disk w' !! "/srv/app/uploads/profiles/profile-1-new.png" = Some RegularFile
    /\ disk w' !! "/srv/app/uploads/profiles/profile-1-old.png" <> Some RegularFile.
Proof.
  apply (updateProfile_replaces_image Sample.env _ Sample.upload 1 Sample.alice
           "uploads/profiles/profile-1-old.png" Sample.world);
    try reflexivity; discriminate.
Defined.

(** X11. The [profileImage] field of the body is not removed from the
    update. A request without a file that sends a path in it stores that
    path on the user's record, and the next request of that user that
    carries a replacement image deletes the file at that path under the
    working directory, whatever file it is. *)
Theorem updateProfile_deletes_named_path (env1 env2 : Env)
    (req1 req2 : Request) (f : MulterFile) (id : nat) (u : User)
    (target : string) (w : World) :
  user req1 = Some id ->
  user req2 = Some id ->
  file req1 = None ->
  file req2 = Some f ->
  body req1 !! "profileImage" = Some target ->
  target <> "" ->
  List.find (has_id id) (users w) = Some u ->
  disk w !! Path.join [cwd env2; target] = Some RegularFile ->
  rejects env1 UserFindByIdAndUpdate = None ->
  rejects env2 UserFindById = None ->
  exists resp1 w1,
    V1.updateProfile env1 req1 w = (Return resp1, w1)
    /\ status resp1 = 200
    /\ disk w1 = disk w
    /\ disk (snd (V1.updateProfile env2 req2 w1)) !! Path.join [cwd env2; target]
       = None.
Proof.
  intros Huser1 Huser2 Hfile1 Hfile2 Htarget Hne Hfound Hdisk Hupdate Hfind.
  set (upd := delete "email" (delete "password" (body req1))).
  assert (Hupd : upd !! "profileImage" = Some target).
  { unfold upd. now rewrite !lookup_delete_ne by discriminate. }
  assert (Hid : has_id id (apply_updates upd u) = true).
  { apply List.find_some in Hfound as [_ H']. exact H'. }
  exists {| status := 200; success := true;
            message := "Profile updated successfully"; error := None;
            data := Some (ProfileData (V1.without_password (apply_updates upd u)));
            cookie := None |},
         {| users := update_first (has_id id) (apply_updates upd) (users w);
            disk := disk w |}.
  split; [|split; [reflexivity|split; [reflexivity|]]].
  - unfold V1.updateProfile. js_unfold.
    rewrite Hfile1, Huser1, Hupdate. cbv iota beta. now rewrite Hfound.
  - unfold V1.updateProfile, V1.cleanupUploadedFile. js_unfold.
    rewrite Hfile2, Huser2, Hfind. cbv iota beta. cbn [users disk].
    rewrite (find_update_first_same _ _ _ _ Hfound Hid).
    assert (Himg : profileImage (apply_updates upd u) = Some target)
      by (cbn; now rewrite Hupd).
    rewrite Himg. unfold truthy. apply String.eqb_neq in Hne. rewrite Hne.
    cbn [negb default]. cbv [Datatypes.id].
    rewrite deleteFile_cases. cbn [disk]. rewrite Hdisk. cbv iota beta.
    handler_cases; cbn [snd disk users];
      rewrite ?lookup_delete_eq; try reflexivity;
      rewrite lookup_delete; case_decide; try reflexivity; apply lookup_delete_eq.
Qed.

Lemma updateProfile_deletes_named_path_witness :
  exists resp1 w1,
    V1.updateProfile Sample.env
      {| body := {[ "profileImage" := "uploads/documents/doc-2-notes.pdf" ]};
         file := None; user := Some 1 |} Demo.world = (Return resp1, w1)
    /\ status resp1 = 200
    /\ disk w1 = disk Demo.world
    /\ disk (snd (V1.updateProfile Sample.env
                    {| body := ∅; file := Some Sample.upload; user := Some 1 |} w1))
         !! "/srv/app/uploads/documents/doc-2-notes.pdf" = None.
Proof.
  apply (updateProfile_deletes_named_path Sample.env Sample.env _ _ Sample.upload
           1 Sample.alice "uploads/documents/doc-2-notes.pdf" Demo.world);
    try reflexivity; discriminate.
Defined.

(** ** The authentication middleware *)

Lemma truthy_Some (s : string) : truthy (Some s) = true <-> s <> "".
Proof.
  cbn. destruct (String.eqb_spec s ""); cbn; split; congruence.
Qed.

(** X12. [authMiddleware] hands the request on only with a non-empty
    token that [jwt.verify] accepts, taken from the cookie or, when the
    cookie is missing or empty, from a [Bearer] header; the request it
    hands on carries the verified identifier and the same body and
    file. When the cookie holds a token, the header plays no part. *)
Theorem authMiddleware_guard (verify : string -> option nat) (req : Auth.Incoming) :
  (forall r, Auth.authMiddleware verify req = Auth.Next r ->
     exists token id,
       token <> ""
       /\ verify token = Some id
       /\ r = {| body := Auth.incoming_body req; file := Auth.incoming_file req;
                 user := Some id |}
       /\ (Auth.cookie_token req = Some token
           \/ (truthy (Auth.cookie_token req) = false
               /\ exists h, Auth.authorization req = Some h
                    /\ String.prefix "Bearer " h = true
                    /\ Auth.split " " h !! 1%nat = Some token)))
  /\ (truthy (Auth.cookie_token req) = true ->
      forall h,
        Auth.authMiddleware verify
          {| Auth.cookie_token := Auth.cookie_token req; Auth.authorization := h;
             Auth.incoming_body := Auth.incoming_body req;
             Auth.incoming_file := Auth.incoming_file req |}
        = Auth.authMiddleware verify req).
Proof.
  split.
  - intros r. unfold Auth.authMiddleware.
    destruct (truthy (Auth.cookie_token req)) eqn:Hcookie.
    + rewrite Hcookie. cbn [negb].
      destruct (Auth.cookie_token req) as [t|] eqn:Ht; [|discriminate].
      cbn [default]. cbv [Datatypes.id].
      destruct (verify t) as [id|] eqn:Hv; [|discriminate].
      intros H. injection H as <-. exists t, id.
      apply truthy_Some in Hcookie. repeat split; try assumption. now left.
    + unfold Auth.tokenFromHeader.
      destruct (Auth.authorization req) as [h|] eqn:Hh; [|discriminate].
      destruct (truthy (Some h) && String.prefix "Bearer " h) eqn:Hb; [|discriminate].
      apply andb_prop in Hb as [_ Hprefix].
      destruct (Auth.split " " h !! 1%nat) as [t|] eqn:Ht; [|discriminate].
      destruct (truthy (Some t)) eqn:Htruthy; [|discriminate].
      cbn [negb default]. cbv [Datatypes.id].
      destruct (verify t) as [id|] eqn:Hv; [|discriminate].
      intros H. injection H as <-. exists t, id.
      apply truthy_Some in Htruthy. repeat split; try assumption.
      right. split; [reflexivity|]. now exists h.
  - intros Hcookie h. unfold Auth.authMiddleware. cbn. now rewrite Hcookie.
Qed.

Lemma authMiddleware_guard_witness :
  Auth.authMiddleware Demo.verify
    {| Auth.cookie_token := Some "jwt.1"; Auth.authorization := Some "Bearer jwt.2";
       Auth.incoming_body := ∅; Auth.incoming_file := None |}
  = Auth.authMiddleware Demo.verify
      {| Auth.cookie_token := Some "jwt.1"; Auth.authorization := None;
         Auth.incoming_body := ∅; Auth.incoming_file := None |}.
Proof.
  apply (proj2 (authMiddleware_guard Demo.verify
                  {| Auth.cookie_token := Some "jwt.1"; Auth.authorization := None;
                     Auth.incoming_body := ∅; Auth.incoming_file := None |})).
  reflexivity.
Defined.

Lemma split_without_separator (sep : ascii) (s : string) :
  ~ In sep (list_ascii_of_string s) -> Auth.split sep s = [s].
Proof.
  induction s as [|c s IH]; [reflexivity|].
  cbn [list_ascii_of_string In Auth.split]. intros Hnot.
  destruct (Ascii.eqb_spec c sep) as [->|_]; [tauto|].
  rewrite IH by tauto. reflexivity.
Qed.

(** X13. Without a cookie, the header [Bearer t] with a non-empty token
    [t] that holds no space makes the middleware verify exactly [t]: it
    hands the request on with the identifier [jwt.verify] finds in [t]
    and answers 403 when [jwt.verify] refuses [t]. *)
Theorem authMiddleware_bearer_header (verify : string -> option nat)
    (req : Auth.Incoming) (t : string) :
  truthy (Auth.cookie_token req) = false ->
  Auth.authorization req = Some ("Bearer " +:+ t) ->
  t <> "" ->
  ~ In " "%char (list_ascii_of_string t) ->
  Auth.authMiddleware verify req
  = match verify t with
    | Some id => Auth.Next {| body := Auth.incoming_body req;
                              file := Auth.incoming_file req; user := Some id |}
    | None => Auth.Respond 403 "Invalid or expired token"
    end.
Proof.
  intros Hcookie Hheader Hne Hspace.
  unfold Auth.authMiddleware, Auth.tokenFromHeader.
  rewrite Hcookie, Hheader.
  assert (Hsplit : Auth.split " " ("Bearer " +:+ t) = ["Bearer"; t]).
  { change ("Bearer " +:+ t)
      with (String "B" (String "e" (String "a" (String "r" (String "e" (String "r"
             (String " " t))))))).
    cbn [Auth.split Ascii.eqb Bool.eqb]. cbn.
    now rewrite split_without_separator. }
  assert (Hbearer : truthy (Some ("Bearer " +:+ t))
                    && String.prefix "Bearer " ("Bearer " +:+ t) = true)
    by (destruct t; reflexivity).
  rewrite Hbearer, Hsplit.
  cbn [lookup list_lookup]. apply truthy_Some in Hne. rewrite Hne.
  cbn [negb default]. cbv [Datatypes.id]. reflexivity.
Qed.

Lemma authMiddleware_bearer_header_witness :
  Auth.authMiddleware Demo.verify
    {| Auth.cookie_token := None; Auth.authorization := Some "Bearer jwt.2";
       Auth.incoming_body := ∅; Auth.incoming_file := None |}
  = Auth.Next {| body := ∅; file := None; user := Some 2 |}.
Proof.
  apply (authMiddleware_bearer_header Demo.verify
           {| Auth.cookie_token := None; Auth.authorization := Some "Bearer jwt.2";
              Auth.incoming_body := ∅; Auth.incoming_file := None |} "jwt.2").
  - reflexivity.
  - reflexivity.
  - discriminate.
  - cbn. intros H. repeat (destruct H as [H|H]; [discriminate|]). exact H.
Defined.

(** ** From login to a protected route *)

Lemma find_by_unique_id (us : list User) (u : User) :
  NoDup (map _id us) -> In u us -> List.find (has_id (_id u)) us = Some u.
Proof.
  induction us as [|x us IH]; [intros _ []|].
  cbn [map List.find]. intros Hnodup Hin. apply NoDup_cons in Hnodup as [Hx Hrest].
  unfold has_id at 1. destruct (Nat.eqb_spec (_id x) (_id u)) as [Heq|Hne].
  - destruct Hin as [->|Hin]; [reflexivity|].
    exfalso. apply Hx. rewrite Heq. apply list_elem_of_In. now apply in_map.
  - destruct Hin as [->|Hin]; [congruence|]. now apply IH.
Qed.

(** X14. The cookie that a successful [login] sets opens the protected
    profile route for the same user: when [jwt.verify] accepts what
    [generateToken] issued, identifiers are unique and the lookup is
    answered, the middleware followed by [getProfile] answers 200 with
    the view of the user that logged in, whatever header comes along. *)
Theorem login_cookie_opens_profile
    (bcrypt : Bcrypt) (sign : nat -> string) (verify : string -> option nat)
    (env env' : Env) (req : Request) (w w' : World) (resp : Response)
    (e : string) (h : option string) :
  (forall id, verify (sign id) = Some id) ->
  (forall id, sign id <> "") ->
  NoDup (map _id (users w)) ->
  rejects env' UserFindById = None ->
  body req !! "email" = Some e ->
  V1.login bcrypt sign env req w = (Return resp, w') ->
  status resp = 200 ->
  exists c view token,
    cookie resp = Some c
    /\ data resp = Some (AuthData view token)
    /\ view_email view = e
    /\ Auth.protected verify (V1_more.getProfile env')
         {| Auth.cookie_token := Some (cookie_value c); Auth.authorization := h;
            Auth.incoming_body := ∅; Auth.incoming_file := None |} w'
       = (Return (inr {| status := 200; success := true;
                         message := "Profile fetched successfully";
                         error := None; data := Some (ProfileData view);
                         cookie := None |}), w').
Proof.
  intros Hverify Hsign Hnodup Hfind Hemail Hlogin Hstatus.
  unfold V1.login in Hlogin. rewrite Hemail in Hlogin.
  handler_cases; cbn [status json json_error] in *; try discriminate.
  match goal with
  | H : List.find (has_email e) (users ?w0) = Some ?u |- _ =>
      rename H into Hfound; rename u into usr
  end.
  apply List.find_some in Hfound as [Hin He].
  exists (V1.setAuthCookie env (sign (_id usr))), (V1.formatUserResponse usr),
         (sign (_id usr)).
  split; [reflexivity|]. split; [reflexivity|].
  split; [cbn; now apply String.eqb_eq in He|].
  unfold Auth.protected, Auth.authMiddleware. cbn [Auth.cookie_token V1.setAuthCookie cookie_value].
  assert (Htruthy : truthy (Some (sign (_id usr))) = true)
    by (apply truthy_Some, Hsign).
  rewrite Htruthy. cbn [negb default]. cbv [Datatypes.id]. rewrite Htruthy, Hverify.
  cbn [negb]. unfold V1_more.getProfile. js_unfold. cbn [user].
  rewrite Hfind. cbv iota beta.
  rewrite (find_by_unique_id _ _ Hnodup Hin). reflexivity.
Qed.

Lemma unary_round_trip (id : nat) : Demo.unary_verify (Demo.unary_sign id) = Some id.
Proof.
  unfold Demo.unary_verify, Demo.unary_sign.
  assert (Hlen : forall n, String.length (Demo.marks n) = n)
    by (induction n as [|n IH]; cbn; [reflexivity | now rewrite IH]).
  rewrite Hlen. now rewrite String.eqb_refl.
Qed.

Lemma login_cookie_opens_profile_witness :
  exists resp c view token,
    V1.login Sample.bcrypt Demo.unary_sign Sample.env
      (login_request "bob@example.com" "S3cret!x") Demo.world
    = (Return resp, Demo.world)
    /\ cookie resp = Some c
    /\ data resp = Some (AuthData view token)
    /\ view_email view = "bob@example.com"
    /\ Auth.protected Demo.unary_verify (V1_more.getProfile Sample.env)
         {| Auth.cookie_token := Some (cookie_value c);
            Auth.authorization := Some "Bearer stale";
            Auth.incoming_body := ∅; Auth.incoming_file := None |} Demo.world
       = (Return (inr {| status := 200; success := true;
                         message := "Profile fetched successfully";
                         error := None; data := Some (ProfileData view);
                         cookie := None |}), Demo.world).
Proof.
  assert (Hlogin : exists resp,
             V1.login Sample.bcrypt Demo.unary_sign Sample.env
               (login_request "bob@example.com" "S3cret!x") Demo.world
             = (Return resp, Demo.world) /\ status resp = 200)
    by (eexists; split; [vm_compute; reflexivity | reflexivity]).
  destruct Hlogin as (resp & Hlogin & Hstatus).
  assert (Hids : NoDup (map _id (users Demo.world)))
    by (apply (bool_decide_unpack _); exact I).
  destruct (login_cookie_opens_profile Sample.bcrypt Demo.unary_sign
              Demo.unary_verify Sample.env Sample.env
              (login_request "bob@example.com" "S3cret!x") Demo.world Demo.world
              resp "bob@example.com" (Some "Bearer stale")
              unary_round_trip ltac:(discriminate) Hids eq_refl eq_refl
              Hlogin Hstatus)
    as (c & view & token & Hc & Hd & He & Hp).
  exists resp, c, view, token. repeat split; assumption.
Defined.

(** ** Saving a stored quiz again *)

Module QuizRoundTrip.
Import Quiz QuizRaw.

Lemma traverse_stored {A B} (f : A -> outcome B) (g : B -> A)
    (rs : list A) (bs : list B) :
  (forall r b, f r = Return b -> f (g b) = Return b) ->
  traverse f rs = Return bs ->
  traverse f (map g bs) = Return bs.
Proof.
  intros Hstored Hrun. apply QuizFacts.traverse_Forall2 in Hrun.
  induction Hrun as [|r b rs bs Hrb _ IH]; [reflexivity|].
  cbn [map traverse]. rewrite (Hstored r b Hrb). cbn [mbind outcome_bind].
  rewrite IH. reflexivity.
Qed.

Lemma required_string_ok (path s : string) :
  s <> "" -> required_string path (Some s) = Return s.
Proof.
  intros H. unfold required_string. apply String.eqb_neq in H. now rewrite H.
Qed.

Lemma required_string_nonempty (path : string) (v : option string) (s : string) :
  required_string path v = Return s -> s <> "".
Proof.
  unfold required_string. destruct v as [x|]; [|discriminate].
  destruct (String.eqb_spec x ""); [discriminate|]. congruence.
Qed.

Lemma cast_difficulty_name (d : Difficulty) :
  cast_difficulty (Some (difficulty_name d)) = Return d.
Proof. destruct d; reflexivity. Qed.

Lemma validate_choice_stored (r : RawChoice) (c : Choice) :
  validate_choice r = Return c -> validate_choice (of_choice c) = Return c.
Proof.
  unfold validate_choice. destruct (required_string _ _) as [o|] eqn:Ho; [|discriminate].
  cbn [mbind outcome_bind]. intros H. injection H as <-.
  cbn [of_choice raw_option raw_choice_isCorrect choice_option choice_isCorrect].
  rewrite (required_string_ok _ _ (required_string_nonempty _ _ _ Ho)). reflexivity.
Qed.

Lemma validate_answer_stored (r : RawAnswer) (a : UserAnswer) :
  validate_answer r = Return a -> validate_answer (of_answer a) = Return a.
Proof.
  unfold validate_answer, required.
  destruct (raw_questionIndex r); [|discriminate]. cbn [mbind outcome_bind].
  destruct (required_string _ _) as [s|] eqn:Hs; [|discriminate].
  cbn [mbind outcome_bind].
  destruct (raw_isCorrect r); [|discriminate]. cbn [mbind outcome_bind].
  intros H. injection H as <-.
  cbn [of_answer raw_questionIndex raw_selectedAnswer raw_isCorrect
       questionIndex selectedAnswer isCorrect mbind outcome_bind].
  rewrite (required_string_ok _ _ (required_string_nonempty _ _ _ Hs)). reflexivity.
Qed.

Lemma validate_question_stored (r : RawQuestion) (q : Question) :
  validate_question r = Return q -> validate_question (of_question q) = Return q.
Proof.
  unfold validate_question.
  destruct (required_string "question" _) as [text|] eqn:Htext; [|discriminate].
  cbn [mbind outcome_bind].
  destruct (traverse validate_choice (raw_options r)) as [opts|] eqn:Hopts;
    [|discriminate]. cbn [mbind outcome_bind].
  destruct (required_string "correctAnswer" _) as [ans|] eqn:Hans; [|discriminate].
  cbn [mbind outcome_bind].
  destruct (cast_difficulty _) as [d|]; [|discriminate]. cbn [mbind outcome_bind].
  intros H. injection H as <-.
  cbn [of_question raw_question raw_options raw_correctAnswer raw_explanation
       raw_difficulty question options correctAnswer explanation difficulty].
  rewrite (required_string_ok _ _ (required_string_nonempty _ _ _ Htext)).
  cbn [mbind outcome_bind].
  rewrite (traverse_stored _ _ _ _ validate_choice_stored Hopts).
  cbn [mbind outcome_bind].
  rewrite (required_string_ok _ _ (required_string_nonempty _ _ _ Hans)).
  cbn [mbind outcome_bind]. rewrite cast_difficulty_name. reflexivity.
Qed.

End QuizRoundTrip.

(** X15. A quiz that the schema accepted is accepted again when it is
    read back and saved, and validation changes nothing in it: the
    defaults, the required paths and the difficulty names are stable. *)
Theorem quiz_validate_stable (r : Quiz.Raw) (q : Quiz.t) :
  Quiz.validate r = Return q ->
  Quiz.validate (QuizRaw.of_quiz q) = Return q.
Proof.
  unfold Quiz.validate, Quiz.required.
  destruct (Quiz.raw_userId r); [|discriminate].
  destruct (Quiz.raw_documentId r); [|discriminate]. cbn [mbind outcome_bind].
  destruct (Quiz.traverse Quiz.validate_question (Quiz.raw_questions r))
    as [qs|] eqn:Hqs; [|discriminate]. cbn [mbind outcome_bind].
  destruct (Quiz.traverse Quiz.validate_answer (Quiz.raw_userAnswers r))
    as [ans|] eqn:Hans; [|discriminate]. cbn [mbind outcome_bind].
  destruct (Quiz.raw_totalQuestions r); [|discriminate]. cbn [mbind outcome_bind].
  intros H. injection H as <-.
  cbn [QuizRaw.of_quiz Quiz.raw_userId Quiz.raw_documentId Quiz.raw_questions
       Quiz.raw_userAnswers Quiz.raw_score Quiz.raw_totalQuestions
       Quiz.raw_answerAttempts Quiz.raw_completedAt
       Quiz.userId Quiz.documentId Quiz.questions Quiz.userAnswers Quiz.score
       Quiz.totalQuestions Quiz.answerAttempts Quiz.completedAt
       mbind outcome_bind].
  rewrite (QuizRoundTrip.traverse_stored _ _ _ _
             QuizRoundTrip.validate_question_stored Hqs).
  cbn [mbind outcome_bind].
  rewrite (QuizRoundTrip.traverse_stored _ _ _ _
             QuizRoundTrip.validate_answer_stored Hans).
  reflexivity.
Qed.

Lemma quiz_validate_stable_witness :
  exists q, Quiz.validate Sample.stray_answer_quiz = Return q
            /\ Quiz.validate (QuizRaw.of_quiz q) = Return q.
Proof.
  eexists. split; [reflexivity|].
  apply (quiz_validate_stable Sample.stray_answer_quiz). reflexivity.
Defined.

(** ** The generated file name *)

Lemma chars_app (a b : string) :
  list_ascii_of_string (a +:+ b)
  = (list_ascii_of_string a ++ list_ascii_of_string b)%list.
Proof.
  induction a as [|c a IH]; [reflexivity|].
  change (list_ascii_of_string (String c (a +:+ b))
          = (c :: (list_ascii_of_string a ++ list_ascii_of_string b))%list).
  cbn [list_ascii_of_string]. now rewrite IH.
Qed.

Lemma pretty_N_char_digit (x : N) : is_digit_char (pretty_N_char x).
Proof.
  unfold pretty_N_char, is_digit_char. repeat case_match; cbn; tauto.
Qed.

Lemma pretty_N_go_digits (x : N) (s : string) :
  exists d, pretty_N_go x s = d +:+ s /\ Forall is_digit_char (list_ascii_of_string d).
Proof.
  revert s. induction (N.lt_wf_0 x) as [x _ IH]. intros s.
  destruct (decide (x = 0)%N) as [->|Hpos].
  - exists "". rewrite pretty_N_go_0. split; [reflexivity | constructor].
  - rewrite pretty_N_go_step by lia.
    destruct (IH (x `div` 10)%N ltac:(apply N.div_lt; lia)
                 (String (pretty_N_char (x `mod` 10)) s)) as (d & Hd & Hdigits).
    exists (d +:+ String (pretty_N_char (x `mod` 10)) ""). split.
    + rewrite Hd, append_assoc. reflexivity.
    + rewrite chars_app. apply Forall_app. split; [assumption|].
      constructor; [apply pretty_N_char_digit | constructor].
Qed.

Lemma pretty_N_digits (x : N) : Forall is_digit_char (list_ascii_of_string (pretty x)).
Proof.
  unfold pretty, pretty_N. case_decide.
  - repeat constructor; cbn; tauto.
  - destruct (pretty_N_go_digits x "") as (d & Hd & Hdigits).
    rewrite Hd, chars_app. cbn [list_ascii_of_string]. rewrite List.app_nil_r. exact Hdigits.
Qed.

Lemma digits_then_dash (a b x y : string) :
  Forall is_digit_char (list_ascii_of_string a) ->
  Forall is_digit_char (list_ascii_of_string b) ->
  a +:+ "-" +:+ x = b +:+ "-" +:+ y ->
  a = b /\ x = y.
Proof.
  revert b. induction a as [|c a IH]; intros [|c' b] Ha Hb H.
  - change (String "-" x = String "-" y) in H. injection H as ->.
    split; reflexivity.
  - change (String "-" x = String c' (b +:+ "-" +:+ y)) in H. injection H as <- _.
    apply Forall_cons in Hb as [Hc _]. cbn in Hc.
    repeat (destruct Hc as [Hc|Hc]; [discriminate|]). contradiction.
  - change (String c (a +:+ "-" +:+ x) = String "-" y) in H. injection H as -> _.
    apply Forall_cons in Ha as [Hc _]. cbn in Hc.
    repeat (destruct Hc as [Hc|Hc]; [discriminate|]). contradiction.
  - change (String c (a +:+ "-" +:+ x) = String c' (b +:+ "-" +:+ y)) in H.
    injection H as -> H.
    cbn [list_ascii_of_string] in Ha, Hb.
    apply Forall_cons in Ha as [_ Ha]. apply Forall_cons in Hb as [_ Hb].
    destruct (IH b Ha Hb H) as [-> ->]. split; reflexivity.
Qed.

(** X16. For one upload (same prefix, user and original name), two
    generated file names differ as soon as the timestamps or the random
    suffixes differ. *)
Theorem generateUniqueFilename_distinct
    (basename : string -> string -> string)
    (t1 r1 t2 r2 : N) (prefix : string) (userId : option string) (name : string) :
  (t1, r1) <> (t2, r2) ->
  generateUniqueFilename basename t1 r1 prefix userId name
  <> generateUniqueFilename basename t2 r2 prefix userId name.
Proof.
  unfold generateUniqueFilename. intros Hne H. apply Hne.
  do 4 apply String.app_inj in H.
  apply digits_then_dash in H as [Ht H]; try apply pretty_N_digits.
  apply digits_then_dash in H as [Hr _]; try apply pretty_N_digits.
  apply (inj pretty) in Ht. apply (inj pretty) in Hr. congruence.
Qed.

Lemma generateUniqueFilename_distinct_witness :
  generateUniqueFilename Demo.basename 1700000000000 12 "profile" (Some "1") "me.png"
  <> generateUniqueFilename Demo.basename 1700000000000 13 "profile" (Some "1") "me.png".
Proof.
  apply generateUniqueFilename_distinct. intros H. discriminate H.
Defined.

(** ** The extension that [path.extname] returns *)

Lemma eqb_slash_false (c : ascii) : c <> "/"%char -> Ascii.eqb c "/" = false.
Proof. apply Ascii.eqb_neq. Qed.

Lemma eqb_dot_false (c : ascii) : c <> "."%char -> Ascii.eqb c "." = false.
Proof. apply Ascii.eqb_neq. Qed.

Ltac scan_done :=
  cbn [length app]; repeat split;
  try assumption; try lia; try (f_equal; lia);
  try (repeat constructor; assumption).

Lemma scan_inv_step (c : ascii) (done : list ascii) (i : nat) (st st' : Path.scan) :
  scan_inv done (S i) st ->
  Path.extname_step i c st = inr st' ->
  scan_inv (c :: done) i st'.
Proof.
  destruct st as [sd sp en ms pds]. unfold scan_inv, Path.extname_step.
  cbn [Path.startDot Path.end_ Path.matchedSlash Path.preDotState Path.startPart].
  intros [Hshape Hms] Hstep.
  destruct (Ascii.eqb_spec c "/") as [->|Hslash].
  - (* a separator that does not end the scan: nothing was seen yet *)
    destruct ms; cbn [negb] in Hstep; [|discriminate].
    injection Hstep as <-. cbn [Path.startDot Path.end_ Path.matchedSlash].
    destruct en as [en|]; [specialize (Hms ltac:(discriminate)); discriminate|].
    split; [|intros H; contradiction].
    destruct sd as [sd|].
    + destruct Hshape as (mid & e & sl & _ & _ & _ & Hen). discriminate.
    + destruct Hshape as (e & sl & -> & _ & ->). exists [], ("/"%char :: sl).
      scan_done.
  - destruct sd as [sd|].
    + (* the dot is chosen already: the character joins what precedes it *)
      destruct Hshape as (mid & e & sl & -> & He & -> & ->).
      assert (Hst : Path.startDot st' = Some (S i + length mid)
                    /\ Path.end_ st' = Some (S i + length mid + 1 + length e)
                    /\ Path.matchedSlash st' = ms).
      { cbn in Hstep. destruct (Ascii.eqb c "."); [destruct (negb (pds =? 1)%Z)|];
          injection Hstep as <-; repeat split. }
      destruct Hst as (Hsd & Hen & Hm). rewrite Hsd, Hen, Hm. split.
      * exists (c :: mid), e, sl. scan_done.
      * intros _. apply Hms. discriminate.
    + destruct Hshape as (e & sl & -> & He & Hen).
      destruct (Ascii.eqb_spec c ".") as [->|Hdot].
      * (* the first dot from the right *)
        destruct en as [en|]; cbn in Hstep; injection Hstep as <-;
          cbn [Path.startDot Path.end_ Path.matchedSlash].
        -- split; [|intros _; apply Hms; discriminate].
           exists [], e, sl. scan_done.
        -- subst e. split; [|reflexivity].
           exists [], [], sl. scan_done.
      * (* a plain character after the last dot *)
        destruct en as [en|]; cbn in Hstep; injection Hstep as <-;
          cbn [Path.startDot Path.end_ Path.matchedSlash].
        -- split; [|intros _; apply Hms; discriminate].
           exists (c :: e), sl. scan_done.
        -- subst e. split; [|reflexivity].
           exists [c], sl. scan_done.
Qed.

Lemma scan_inv_break (c : ascii) (done todo : list ascii) (st st' : Path.scan) :
  scan_inv done (S (length todo)) st ->
  Path.extname_step (length todo) c st = inl st' ->
  scan_post (rev todo ++ c :: done) st'.
Proof.
  destruct st as [sd sp en ms pds]. unfold scan_inv, scan_post, Path.extname_step.
  cbn [Path.startDot Path.end_ Path.matchedSlash Path.preDotState Path.startPart].
  intros [Hshape _] Hstep.
  destruct (Ascii.eqb c "/").
  - destruct (negb ms); [|discriminate]. injection Hstep as <-.
    cbn [Path.startDot Path.end_].
    destruct sd as [sd|]; [|exact I]. destruct en as [en|]; [|exact I].
    destruct Hshape as (mid & e & sl & -> & He & -> & Hen). injection Hen as ->.
    exists (rev todo ++ [c])%list, mid, e, sl.
    rewrite <- app_assoc. cbn [app]. rewrite length_app, length_rev. cbn [length].
    repeat split; try assumption; lia.
  - destruct en; destruct (Ascii.eqb c "."); destruct sd;
      cbn in Hstep; try destruct (negb (pds =? 1)%Z); discriminate.
Qed.

Lemma loop_shape (todo done : list ascii) (st : Path.scan) :
  scan_inv done (length todo) st ->
  scan_post (rev todo ++ done) (Path.extname_loop todo (length todo) st).
Proof.
  revert done st. induction todo as [|c todo IH]; intros done st Hinv.
  - cbn. destruct st as [sd sp en ms pds]. unfold scan_inv, scan_post in *.
    cbn [Path.startDot Path.end_] in *. destruct Hinv as [Hshape _].
    destruct sd as [sd|]; [|exact I]. destruct en as [en|]; [|exact I].
    destruct Hshape as (mid & e & sl & -> & He & -> & Hen). injection Hen as ->.
    exists [], mid, e, sl. repeat split; assumption.
  - cbn [length Path.extname_loop rev].
    destruct (Path.extname_step (length todo) c st) as [st'|st'] eqn:Hstep.
    + rewrite <- app_assoc. cbn [app]. now apply scan_inv_break with st.
    + rewrite <- app_assoc. cbn [app]. apply IH. now apply scan_inv_step with st.
Qed.

Lemma substring_middle (a b c : list ascii) :
  String.substring (length a) (length b) (string_of_list_ascii (a ++ b ++ c))
  = string_of_list_ascii b.
Proof.
  induction a as [|x a IH]; cbn [length app string_of_list_ascii String.substring].
  - revert c. induction b as [|y b IHb]; intros c;
      cbn [length app string_of_list_ascii String.substring].
    + destruct (string_of_list_ascii c); reflexivity.
    + now rewrite IHb.
  - exact IH.
Qed.

(** What [path.extname] can return: nothing, or a dot followed by
    characters that are neither dots nor separators. *)
Lemma extname_shape (p : string) :
  Path.extname p = ""
  \/ exists e, Path.extname p = String "." (string_of_list_ascii e)
               /\ Forall plain_char e.
Proof.
  unfold Path.extname.
  set (l := list_ascii_of_string p).
  pose proof (loop_shape (rev l) [] Path.scan0) as Hpost.
  rewrite length_rev, rev_involutive, List.app_nil_r in Hpost.
  specialize (Hpost ltac:(split; [exists [], []; repeat split; constructor
                                 | intros H; now contradiction H])).
  unfold scan_post in Hpost.
  destruct (Path.startDot _) as [sd|]; [|now left].
  destruct (Path.end_ _) as [en|]; [|now left].
  destruct (_ || _); [now left|]. right.
  destruct Hpost as (pre & mid & e & sl & Hl & He & -> & ->).
  exists e. split; [|assumption].
  unfold Js.slice.
  rewrite <- (string_of_list_ascii_of_string p). fold l. rewrite Hl.
  replace (length pre + length mid + 1 + length e - (length pre + length mid))
    with (length ("."%char :: e)) by (cbn [length]; lia).
  rewrite <- length_app, app_assoc.
  change ("."%char :: e ++ sl)%list with (("."%char :: e) ++ sl)%list.
  apply (substring_middle (pre ++ mid) ("."%char :: e) sl).
Qed.

Ltac list_len :=
  repeat (progress (rewrite ?length_app, ?length_rev; cbn [length])); lia.

Lemma extname_step_after_dot (i sd en : nat) (pds : Z) (c : ascii) :
  c <> "/"%char ->
  exists pds',
    Path.extname_step i c
      {| Path.startDot := Some sd; Path.startPart := 0; Path.end_ := Some en;
         Path.matchedSlash := false; Path.preDotState := pds |}
    = inr {| Path.startDot := Some sd; Path.startPart := 0; Path.end_ := Some en;
             Path.matchedSlash := false; Path.preDotState := pds' |}
    /\ (c <> "."%char -> pds' = (-1)%Z)
    /\ (c = "."%char -> pds' = 1%Z).
Proof.
  intros Hslash. unfold Path.extname_step. rewrite (eqb_slash_false _ Hslash).
  cbn. destruct (Ascii.eqb_spec c ".") as [->|Hdot].
  - destruct (Z.eqb_spec pds 1) as [->|Hne]; cbn;
      (eexists; split; [reflexivity|]; split; [congruence | reflexivity]).
  - eexists. split; [reflexivity|]. split; [reflexivity | congruence].
Qed.

Lemma loop_after_dot (a rest : list ascii) (n sd en : nat) (pds : Z) :
  n = length a + length rest ->
  Forall (fun c => c <> "/"%char) a ->
  exists pds',
    Path.extname_loop (a ++ rest) n
      {| Path.startDot := Some sd; Path.startPart := 0; Path.end_ := Some en;
         Path.matchedSlash := false; Path.preDotState := pds |}
    = Path.extname_loop rest (length rest)
        {| Path.startDot := Some sd; Path.startPart := 0; Path.end_ := Some en;
           Path.matchedSlash := false; Path.preDotState := pds' |}.
Proof.
  revert n pds. induction a as [|c a IH]; intros n pds -> Ha.
  - exists pds. reflexivity.
  - apply Forall_cons in Ha as [Hc Ha].
    cbn [app length Nat.add Path.extname_loop].
    destruct (extname_step_after_dot (length a + length rest) sd en pds c Hc)
      as (pds1 & -> & _).
    apply IH; [reflexivity | assumption].
Qed.

Lemma loop_plain (a rest : list ascii) (n en : nat) :
  n = length a + length rest ->
  Forall plain_char a ->
  Path.extname_loop (a ++ rest) n
    {| Path.startDot := None; Path.startPart := 0; Path.end_ := Some en;
       Path.matchedSlash := false; Path.preDotState := 0 |}
  = Path.extname_loop rest (length rest)
      {| Path.startDot := None; Path.startPart := 0; Path.end_ := Some en;
         Path.matchedSlash := false; Path.preDotState := 0 |}.
Proof.
  revert n. induction a as [|c a IH]; intros n -> Ha; [reflexivity|].
  apply Forall_cons in Ha as [[Hdot Hslash] Ha].
  cbn [app length Nat.add Path.extname_loop].
  unfold Path.extname_step at 1.
  rewrite (eqb_slash_false _ Hslash), (eqb_dot_false _ Hdot). cbn.
  apply IH; [reflexivity | assumption].
Qed.

Lemma loop_extension (a rest : list ascii) (n : nat) :
  n = length a + S (length rest) ->
  Forall plain_char a ->
  Path.extname_loop (a ++ "."%char :: rest) n Path.scan0
  = Path.extname_loop rest (length rest)
      {| Path.startDot := Some (length rest); Path.startPart := 0;
         Path.end_ := Some n; Path.matchedSlash := false;
         Path.preDotState := 0 |}.
Proof.
  intros -> Ha. destruct a as [|c a].
  - cbn [app length Nat.add Path.extname_loop]. cbn. repeat f_equal. lia.
  - apply Forall_cons in Ha as [[Hdot Hslash] Ha].
    cbn [app length Nat.add Path.extname_loop].
    unfold Path.extname_step at 1.
    rewrite (eqb_slash_false _ Hslash), (eqb_dot_false _ Hdot). cbn.
    replace (length a + S (length rest) + 1) with (S (length a + S (length rest)))
      by lia.
    rewrite (loop_plain a ("."%char :: rest) _ _ eq_refl Ha).
    cbn [length Path.extname_loop]. cbn. reflexivity.
Qed.

Lemma loop_final (a : list ascii) (sd en : nat) (pds : Z) :
  length a < sd ->
  pds = (-1)%Z \/ (pds = 1%Z /\ length a + 2 <= sd) ->
  let st' := Path.extname_loop a (length a)
               {| Path.startDot := Some sd; Path.startPart := 0;
                  Path.end_ := Some en; Path.matchedSlash := false;
                  Path.preDotState := pds |} in
  Path.startDot st' = Some sd
  /\ Path.end_ st' = Some en
  /\ (Path.preDotState st' = (-1)%Z
      \/ (Path.preDotState st' = 1%Z /\ Path.startPart st' + 2 <= sd)).
Proof.
  revert pds. induction a as [|c a IH]; intros pds Hlt Hpds; cbn zeta.
  - cbn. repeat split. destruct Hpds as [->|[-> H]]; [now left | right; split; [reflexivity|]].
    cbn in H. lia.
  - cbn [length Path.extname_loop]. cbn [length] in Hlt, Hpds.
    destruct (Ascii.eqb_spec c "/") as [->|Hslash].
    + cbn. repeat split. destruct Hpds as [->|[-> H]]; [now left | right].
      split; [reflexivity | lia].
    + destruct (extname_step_after_dot (length a) sd en pds c Hslash)
        as (pds1 & -> & Hplain & Hdot).
      apply IH; [lia|].
      destruct (Ascii.eqb_spec c ".") as [Heq|Hne].
      * right. split; [now apply Hdot | lia].
      * left. now apply Hplain.
Qed.

(** The extension of a path that ends in [c mid . e], where [c] is a
    plain character, [mid] holds no separator and [e] holds neither a
    dot nor a separator, is [. e], whatever comes before [c]. *)
Lemma extname_of_suffix (pre mid e : list ascii) (c : ascii) :
  plain_char c ->
  Forall (fun x => x <> "/"%char) mid ->
  Forall plain_char e ->
  Path.extname (string_of_list_ascii (pre ++ c :: mid ++ "."%char :: e))
  = string_of_list_ascii ("."%char :: e).
Proof.
  intros [Hcdot Hcslash] Hmid He. unfold Path.extname.
  rewrite list_ascii_of_string_of_list_ascii.
  set (l := (pre ++ c :: mid ++ "."%char :: e)%list).
  assert (Hrev : rev l = (rev e ++ "."%char :: (rev mid ++ c :: rev pre))%list).
  { unfold l. rewrite rev_app_distr. cbn [rev]. rewrite rev_app_distr. cbn [rev].
    rewrite <- !app_assoc. reflexivity. }
  assert (Hlen : length l = length (rev e) + S (length (rev mid ++ c :: rev pre))).
  { unfold l. list_len. }
  rewrite Hrev.
  rewrite (loop_extension (rev e) _ _ Hlen)
    by (apply Forall_rev; exact He).
  destruct (loop_after_dot (rev mid) (c :: rev pre)
              (length (rev mid ++ c :: rev pre))
              (length (rev mid ++ c :: rev pre)) (length l) 0
              ltac:(list_len)
              ltac:(apply Forall_rev; exact Hmid)) as (pds1 & ->).
  cbn [length Path.extname_loop].
  destruct (extname_step_after_dot (length (rev pre))
              (length (rev mid ++ c :: rev pre)) (length l) pds1 c Hcslash)
    as (pds2 & -> & Hplain & _).
  rewrite (Hplain Hcdot).
  assert (Hsd : length (rev mid ++ c :: rev pre) = length pre + 1 + length mid).
  { list_len. }
  pose proof (loop_final (rev pre) (length (rev mid ++ c :: rev pre)) (length l)
                (-1)%Z ltac:(list_len) ltac:(now left)) as Hfinal.
  cbn zeta in Hfinal. destruct Hfinal as (Hstart & Hend & Hpds).
  rewrite Hstart, Hend.
  assert (Hcond : (Path.preDotState
                     (Path.extname_loop (rev pre) (length (rev pre))
                        {| Path.startDot := Some (length (rev mid ++ c :: rev pre));
                           Path.startPart := 0; Path.end_ := Some (length l);
                           Path.matchedSlash := false;
                           Path.preDotState := (-1) |}) =? 0)%Z
                  || ((Path.preDotState
                         (Path.extname_loop (rev pre) (length (rev pre))
                            {| Path.startDot := Some (length (rev mid ++ c :: rev pre));
                               Path.startPart := 0; Path.end_ := Some (length l);
                               Path.matchedSlash := false;
                               Path.preDotState := (-1) |}) =? 1)%Z
                      && (length (rev mid ++ c :: rev pre) =? length l - 1)%nat
                      && (length (rev mid ++ c :: rev pre)
                          =? Path.startPart
                               (Path.extname_loop (rev pre) (length (rev pre))
                                  {| Path.startDot :=
                                       Some (length (rev mid ++ c :: rev pre));
                                     Path.startPart := 0;
                                     Path.end_ := Some (length l);
                                     Path.matchedSlash := false;
                                     Path.preDotState := (-1) |}) + 1)%nat)
                  = false).
  { destruct Hpds as [->|[-> Hsp]]; [reflexivity|].
    cbn [Z.eqb orb andb Pos.eqb].
    apply andb_false_intro2. apply Nat.eqb_neq. lia. }
  rewrite Hcond. unfold Js.slice.
  replace (length l - length (rev mid ++ c :: rev pre))
    with (length ("."%char :: e))
    by (unfold l; rewrite Hsd; list_len).
  rewrite Hsd.
  replace (length pre + 1 + length mid) with (length (pre ++ c :: mid))
    by list_len.
  unfold l.
  replace (pre ++ c :: mid ++ "."%char :: e)%list
    with ((pre ++ c :: mid) ++ ("."%char :: e) ++ [])%list
    by (rewrite List.app_nil_r, <- app_assoc; reflexivity).
  apply substring_middle.
Qed.

Lemma replace_unsafe_no_separator (s : string) :
  Forall (fun c => c <> "/"%char) (list_ascii_of_string (replace_unsafe s)).
Proof.
  induction s as [|c s IH]; [constructor|].
  cbn [replace_unsafe list_ascii_of_string]. constructor; [|exact IH].
  destruct (kept_char c) eqn:Hkept; [|discriminate].
  intros ->. discriminate Hkept.
Qed.

(** X17. The generated file name keeps the extension of the original
    name: when the original name has an extension, [path.extname] of the
    generated name returns the same extension, whatever the prefix, the
    user, the two numbers and the base name are. *)
Theorem generateUniqueFilename_keeps_extension
    (basename : string -> string -> string)
    (timestamp randomSuffix : N) (prefix : string) (userId : option string)
    (name : string) :
  Path.extname name <> "" ->
  Path.extname
    (generateUniqueFilename basename timestamp randomSuffix prefix userId name)
  = Path.extname name.
Proof.
  intros Hext.
  destruct (extname_shape name) as [Hnone | (e & He & Hplain)]; [contradiction|].
  unfold generateUniqueFilename. rewrite He.
  set (uid := if truthy userId then default "" userId else "guest").
  set (san := replace_unsafe (basename name (String "." (string_of_list_ascii e)))).
  set (head := prefix +:+ "-" +:+ uid +:+ "-" +:+ pretty timestamp
               +:+ "-" +:+ pretty randomSuffix).
  assert (Hgen : prefix +:+ "-" +:+ uid +:+ "-" +:+ pretty timestamp +:+ "-"
                 +:+ pretty randomSuffix +:+ "-" +:+ san
                 +:+ String "." (string_of_list_ascii e)
                 = string_of_list_ascii
                     (list_ascii_of_string head
                      ++ "-"%char :: list_ascii_of_string san ++ "."%char :: e)).
  { rewrite <- (string_of_list_ascii_of_string
                  (prefix +:+ "-" +:+ uid +:+ "-" +:+ pretty timestamp +:+ "-"
                   +:+ pretty randomSuffix +:+ "-" +:+ san
                   +:+ String "." (string_of_list_ascii e))).
    f_equal. unfold head. rewrite !chars_app.
    cbn [list_ascii_of_string]. rewrite list_ascii_of_string_of_list_ascii.
    rewrite <- !app_assoc. reflexivity. }
  rewrite Hgen.
  rewrite (extname_of_suffix (list_ascii_of_string head) (list_ascii_of_string san)
             e "-"%char).
  - reflexivity.
  - split; discriminate.
  - apply replace_unsafe_no_separator.
  - exact Hplain.
Qed.

Lemma generateUniqueFilename_keeps_extension_witness :
  Path.extname
    (generateUniqueFilename Demo.basename 1700000000000 12 "doc" None
       "My Report (final).v2.PDF")
  = ".PDF".
Proof.
  refine (eq_trans
            (generateUniqueFilename_keeps_extension Demo.basename 1700000000000 12
               "doc" None "My Report (final).v2.PDF" _) _).
  - intros H. vm_compute in H. discriminate H.
  - vm_compute. reflexivity.
Defined.

Lemma digit_not_separator (c : ascii) : is_digit_char c -> c <> "/"%char.
Proof.
  unfold is_digit_char. cbn. intros H ->.
  repeat (destruct H as [H|H]; [discriminate|]). exact H.
Qed.

(** X18. The generated file name is a single path segment as far as the
    original name is concerned: when neither the prefix nor the user
    identifier holds a separator, the generated name holds none. *)
Theorem generateUniqueFilename_single_segment
    (basename : string -> string -> string)
    (timestamp randomSuffix : N) (prefix : string) (userId : option string)
    (name : string) :
  ~ In "/"%char (list_ascii_of_string prefix) ->
  (forall u, userId = Some u -> ~ In "/"%char (list_ascii_of_string u)) ->
  ~ In "/"%char
      (list_ascii_of_string
         (generateUniqueFilename basename timestamp randomSuffix prefix userId name)).
Proof.
  intros Hprefix Huser. unfold generateUniqueFilename.
  assert (Hdigits : forall n : N, ~ In "/"%char (list_ascii_of_string (pretty n))).
  { intros n Hin. pose proof (pretty_N_digits n) as Hd.
    rewrite Forall_forall in Hd. apply list_elem_of_In in Hin.
    now apply (digit_not_separator _ (Hd _ Hin)). }
  assert (Huid : ~ In "/"%char
                   (list_ascii_of_string
                      (if truthy userId then default "" userId else "guest"))).
  { destruct userId as [u|]; cbn [truthy].
    - destruct (negb (String.eqb u "")); [now apply Huser|].
      cbn. intros H. repeat (destruct H as [H|H]; [discriminate|]). exact H.
    - cbn. intros H. repeat (destruct H as [H|H]; [discriminate|]). exact H. }
  assert (Hsan : forall s, ~ In "/"%char (list_ascii_of_string (replace_unsafe s))).
  { intros s Hin. pose proof (replace_unsafe_no_separator s) as Hs.
    rewrite Forall_forall in Hs. apply list_elem_of_In in Hin.
    now apply (Hs _ Hin). }
  assert (Hext : ~ In "/"%char (list_ascii_of_string (Path.extname name))).
  { destruct (extname_shape name) as [-> | (e & -> & Hplain)]; [cbn; tauto|].
    cbn [list_ascii_of_string]. rewrite list_ascii_of_string_of_list_ascii.
    intros [H|H]; [discriminate|].
    rewrite Forall_forall in Hplain. apply list_elem_of_In in H.
    now destruct (Hplain _ H) as [_ Hs]. }
  rewrite !chars_app. rewrite !in_app_iff.
  change (list_ascii_of_string "-") with ["-"%char]. cbn [In].
  intros H.
  repeat (destruct H as [H|H]);
    first [ discriminate H | contradiction
          | now apply Hprefix | now apply Huid | now apply (Hdigits timestamp)
          | now apply (Hdigits randomSuffix) | now apply (Hsan _ H)
          | now apply Hext ].
Qed.

Lemma generateUniqueFilename_single_segment_witness :
  ~ In "/"%char
      (list_ascii_of_string
         (generateUniqueFilename Demo.basename 1700000000000 12 "doc" (Some "42")
            "../../etc/passwd.txt")).
Proof.
  apply (generateUniqueFilename_single_segment Demo.basename 1700000000000 12
           "doc" (Some "42") "../../etc/passwd.txt").
  - cbn. intros H. repeat (destruct H as [H|H]; [discriminate|]). exact H.
  - intros u Hu. injection Hu as <-. cbn.
    intros H. repeat (destruct H as [H|H]; [discriminate|]). exact H.
Defined.

(** ** More on the first revision *)

(** X19. A registration answered with 201 leaves the disk as it was and
    stores on the new record the path of the accepted file, or no image
    when the request carried none. *)
Theorem register_success_keeps_upload
    (bcrypt : Bcrypt) (sign : nat -> string) (env : Env)
    (req : Request) (w w1 : World) (resp : Response) :
  V1.register bcrypt sign env req w = (Return resp, w1) ->
  status resp = 201 ->
  disk w1 = disk w
  /\ exists u, users w1 = (users w ++ [u])%list
               /\ profileImage u = profile_path <$> file req.
Proof.
  intros Hrun Hstatus.
  unfold V1.register, V1.cleanupUploadedFile in Hrun.
  handler_cases; cbn [status json json_error data_name data_email] in *;
    try discriminate; simplify_eq.
  all: split; [reflexivity|]; eexists; split; reflexivity.
Qed.

Lemma register_success_keeps_upload_witness :
  exists w1,
    disk w1 = disk Sample.world
    /\ exists u, users w1 = (users Sample.world ++ [u])%list
                 /\ profileImage u = Some "uploads/profiles/profile-1-new.png".
Proof.
  eexists.
  eapply (register_success_keeps_upload Sample.bcrypt Sample.sign Sample.env
            {| body := {[ "name" := "Carol"; "email" := "carol@example.com";
                          "password" := "C4rol!pw" ]};
               file := Some Sample.upload; user := None |} Sample.world).
  - vm_compute. reflexivity.
  - reflexivity.
Defined.

(** X20. For a user that no longer exists [updateProfile] answers 404
    and changes nothing: a replacement image that was accepted with the
    request stays on disk, and no previous image is deleted. *)
Theorem updateProfile_unknown_user_keeps_upload (env : Env)
    (req : Request) (f : MulterFile) (id : nat) (w : World) :
  file req = Some f ->
  disk w !! stored_path env f = Some RegularFile ->
  user req = Some id ->
  List.find (has_id id) (users w) = None ->
  rejects env UserFindById = None ->
  rejects env UserFindByIdAndUpdate = None ->
  exists w',
    V1.updateProfile env req w = (Return (json 404 false "User not found"), w')
    /\ disk w' = disk w
    /\ disk w' !! stored_path env f = Some RegularFile.
Proof.
  intros _ Hdisk Huser Hnone Hfind Hupdate. exists w.
  split; [now apply updateProfile_unknown_user with id|].
  split; [reflexivity | exact Hdisk].
Qed.

Lemma updateProfile_unknown_user_keeps_upload_witness :
  exists w',
    V1.updateProfile Sample.env
      {| body := {[ "name" := "Nobody" ]}; file := Some Sample.upload;
         user := Some 9 |} Sample.world
    = (Return (json 404 false "User not found"), w')
    /\ disk w' = disk Sample.world
    /\ disk w' !! "/srv/app/uploads/profiles/profile-1-new.png" = Some RegularFile.
Proof.
  apply (updateProfile_unknown_user_keeps_upload Sample.env _ Sample.upload 9
           Sample.world); reflexivity.
Defined.

(** X21. In the first revision [login] answers an unknown email and a
    wrong password with one and the same response, 401 "Invalid email
    or password", and writes nothing in either case. *)
Theorem login_v1_failures_identical
    (bcrypt : Bcrypt) (sign : nat -> string) (env : Env)
    (unknown known : Request) (w1 w2 : World) (e1 e2 pw : string) (u : User) :
  rejects env UserFindOne = None ->
  rejects env BcryptCompare = None ->
  body unknown !! "email" = Some e1 ->
  List.find (has_email e1) (users w1) = None ->
  body known !! "email" = Some e2 ->
  body known !! "password" = Some pw ->
  List.find (has_email e2) (users w2) = Some u ->
  bcrypt_compare bcrypt pw (password u) = false ->
  V1.login bcrypt sign env unknown w1
  = (Return (json 401 false "Invalid email or password"), w1)
  /\ V1.login bcrypt sign env known w2
     = (Return (json 401 false "Invalid email or password"), w2).
Proof.
  intros H1 H2 H3 H4 H5 H6 H7 H8.
  destruct (login_failures_identical bcrypt sign env unknown known w1 w2
              e1 e2 pw u H1 H2 H3 H4 H5 H6 H7 H8) as [Hunknown Hknown].
  rewrite Hunknown in Hknown.
  destruct (v1_login_answers bcrypt sign env unknown w1) as (r1 & Hr1 & _).
  destruct (v1_login_answers bcrypt sign env known w2) as (r2 & Hr2 & _).
  rewrite Hr1 in Hunknown. rewrite Hr2 in Hknown. cbn in Hunknown, Hknown.
  injection Hunknown as ->. injection Hknown as ->. split; assumption.
Qed.

Lemma login_v1_failures_identical_witness :
  V1.login Sample.bcrypt Sample.sign Sample.env
    (login_request "nobody@example.com" "guess") Sample.world
  = (Return (json 401 false "Invalid email or password"), Sample.world)
  /\ V1.login Sample.bcrypt Sample.sign Sample.env
       (login_request "alice@example.com" "guess") Sample.world
     = (Return (json 401 false "Invalid email or password"), Sample.world).
Proof.
  apply (login_v1_failures_identical Sample.bcrypt Sample.sign Sample.env
           (login_request "nobody@example.com" "guess")
           (login_request "alice@example.com" "guess")
           Sample.world Sample.world "nobody@example.com" "alice@example.com"
           "guess" Sample.alice); reflexivity.
Defined.

(** X22. In the first revision a registration that comes with an
    accepted file and is not answered with 201 (the email is taken, or
    any call is rejected) has removed that file from disk when it
    answers. *)
Theorem register_v1_failure_removes_upload
    (bcrypt : Bcrypt) (sign : nat -> string) (env : Env)
    (req : Request) (f : MulterFile) (w w' : World) (resp : Response) :
  file req = Some f ->
  disk w !! stored_path env f = Some RegularFile ->
  V1.register bcrypt sign env req w = (Return resp, w') ->
  status resp <> 201 ->
  disk w' !! stored_path env f = None.
Proof.
  intros Hfile Hdisk Hrun Hstatus.
  destruct (register_failure_removes_upload bcrypt sign env req f w Hfile Hdisk)
    as (resp0 & w0 & Hrun0 & Hgone).
  rewrite Hrun in Hrun0. injection Hrun0 as <- <-.
  now apply Hgone.
Qed.

Lemma register_v1_failure_removes_upload_witness :
  exists resp w',
    V1.register Sample.bcrypt Sample.sign
      (Sample.env_rejecting UserCreate "connection lost")
      {| body := {[ "name" := "Carol"; "email" := "carol@example.com";
                    "password" := "C4rol!pw" ]};
         file := Some Sample.upload; user := None |} Sample.world
    = (Return resp, w')
    /\ disk w' !! "/srv/app/uploads/profiles/profile-1-new.png" = None.
Proof.
  eexists _, _. split; [vm_compute; reflexivity|].
  apply (register_v1_failure_removes_upload Sample.bcrypt Sample.sign
           (Sample.env_rejecting UserCreate "connection lost")
           {| body := {[ "name" := "Carol"; "email" := "carol@example.com";
                         "password" := "C4rol!pw" ]};
              file := Some Sample.upload; user := None |}
           Sample.upload Sample.world _
           (json_error 500 "User registration failed" "Internal server error")).
  - reflexivity.
  - reflexivity.
  - vm_compute. reflexivity.
  - discriminate.
Defined.

(** X24. When the token cannot be issued after the record was created,
    [register] answers 500 although the new record stays in the
    collection; the accepted file is removed by the error path, so the
    record names a profile image that is no longer on disk. *)
Theorem register_token_failure_keeps_record
    (bcrypt : Bcrypt) (sign : nat -> string) (env : Env)
    (req : Request) (f : MulterFile) (n e pw err : string) (w : World) :
  body req !! "name" = Some n ->
  body req !! "email" = Some e ->
  body req !! "password" = Some pw ->
  file req = Some f ->
  disk w !! stored_path env f = Some RegularFile ->
  existsb (has_email e) (users w) = false ->
  rejects env VerifyEmail = None ->
  rejects env BcryptHash = None ->
  rejects env UserCreate = None ->
  rejects env GenerateToken = Some err ->
  exists w' u,
    V1.register bcrypt sign env req w
    = (Return (json_error 500 "User registration failed" (V1.error_detail env err)), w')
    /\ users w' = (users w ++ [u])%list
    /\ email u = e
    /\ profileImage u = Some (profile_path f)
    /\ disk w' !! stored_path env f = None.
Proof.
  intros Hn He Hpw Hfile Hdisk Hfree Hverify Hhash Hcreate Htoken.
  unfold V1.register, V1.cleanupUploadedFile. js_unfold.
  rewrite Hn, He, Hpw, Hfile, Hverify, Hfree, Hhash, Hcreate, Htoken.
  cbn [data_name data_email]. cbv iota beta.
  rewrite cleanup_path_is_stored_path, deleteFile_cases. cbn [disk users].
  rewrite Hdisk. eexists _, _. split; [reflexivity|]. cbn [users disk].
  split; [reflexivity|]. split; [reflexivity|]. split; [reflexivity|].
  apply lookup_delete_eq.
Qed.

Lemma register_token_failure_keeps_record_witness :
  exists w' u,
    V1.register Sample.bcrypt Sample.sign
      (Sample.env_rejecting GenerateToken "secretOrPrivateKey must have a value")
      {| body := {[ "name" := "Carol"; "email" := "carol@example.com";
                    "password" := "C4rol!pw" ]};
         file := Some Sample.upload; user := None |} Sample.world
    = (Return (json_error 500 "User registration failed" "Internal server error"), w')
    /\ users w' = (users Sample.world ++ [u])%list
    /\ email u = "carol@example.com"
    /\ profileImage u = Some "uploads/profiles/profile-1-new.png"
    /\ disk w' !! "/srv/app/uploads/profiles/profile-1-new.png" = None.
Proof.
  apply (register_token_failure_keeps_record Sample.bcrypt Sample.sign
           (Sample.env_rejecting GenerateToken "secretOrPrivateKey must have a value")
           _ Sample.upload "Carol" "carol@example.com" "C4rol!pw"
           "secretOrPrivateKey must have a value" Sample.world); reflexivity.
Defined.
